(** * RaAI backend: model loader and RAG ingestion

    A shallow embedding of [backend/utils/model_loader.py],
    [backend/exception/custom_exception.py] and
    [backend/ingest_rag_docs.py].

    Python code that reads the environment, writes to the console and the
    structured log, touches the file system and raises exceptions is
    embedded in a state-and-exception monad [M] over a [World].  Third-party
    collaborators (dotenv, the YAML configuration loader, the langchain
    clients, the PDF loader, the text splitter and FAISS) are not part of
    the repository; their behaviour is a parameter, bundled in [Externals]. *)

From Stdlib Require Import String List ZArith QArith Bool Lia.
From stdpp Require Import base option list strings pretty gmap.

Local Open Scope string_scope.
Local Open Scope list_scope.

(** ** Exceptions *)

(** [DocumentPortalException] is the only exception class the repository
    defines.  As a raised value it is identified by its [error_message];
    the attributes [__init__] reads off the interpreter's traceback are
    kept by [DocumentPortalError] below.  [LibraryError] stands for any
    [Exception] raised inside a third-party call, identified by its [str].
    [SystemExit] is raised by [sys.exit] and is not a subclass of
    [Exception]. *)
Inductive Exception : Type :=
| ValueError (msg : string)
| KeyError (key : string)
| DocumentPortalException (error_message : string)
| LibraryError (msg : string)
| SystemExit (code : Z).

(** [isinstance(e, Exception)], as tested by [except Exception]. *)
Definition is_Exception (e : Exception) : bool :=
  match e with
  | SystemExit _ => false
  | _ => true
  end.

(** The line feed written as [\n] in the Python literals. *)
Definition LF : string :=
  String (Ascii.Ascii false true false true false false false false) EmptyString.

(** The attributes of a [DocumentPortalException] instance. *)
Record DocumentPortalError : Type := {
  error_message : string;
  file_name : string;
  lineno : Z;
  traceback_str : string
}.

(** [DocumentPortalException.__str__] *)
Definition DocumentPortalException_str (self : DocumentPortalError) : string :=
  LF +:+ "        Error in [" +:+ file_name self +:+ "] at line [" +:+ pretty (lineno self)
  +:+ "]" +:+ LF +:+ "        Message: " +:+ error_message self +:+ LF
  +:+ "        Traceback:" +:+ LF +:+ "        " +:+ traceback_str self +:+ LF
  +:+ "        ".

(** The attributes [__init__] sets when [exc_tb is None]. *)
Definition without_traceback (message : string) : DocumentPortalError :=
  {| error_message := message;
     file_name := "unknown";
     lineno := 0;
     traceback_str := "No traceback available" |}.

(** [str(e)], as spliced into messages: the single argument of a built-in
    exception, the [repr] of a plain key for [KeyError], the exit code for
    [SystemExit].  For the repository's exception it is the [__str__] text
    of an instance raised while no exception is being handled; where the
    code prints an exception that may have been raised inside a handler,
    the exception is kept as it is ([FExc], [PrintExc]). *)
Definition py_str (e : Exception) : string :=
  match e with
  | ValueError msg => msg
  | KeyError key => "'" +:+ key +:+ "'"
  | DocumentPortalException error_message =>
      DocumentPortalException_str (without_traceback error_message)
  | LibraryError msg => msg
  | SystemExit code => pretty code
  end.

(** [str(last_error)] where [last_error] may still be [None]. *)
Definition py_str_opt (e : option Exception) : string :=
  match e with
  | Some e => py_str e
  | None => "None"
  end.

(** ** Console and structured log *)

(** The value of a keyword argument of a log call; [FExc e] is the text
    [str(e)] of a caught exception, not expanded. *)
Inductive Field : Type :=
| FNone
| FStr (s : string)
| FInt (n : Z)
| FNum (q : Q)
| FStrs (l : list string)
| FExc (e : Exception).

Inductive Level : Type := INFO | WARNING | ERROR.

(** [PrintExc before e after] is [print(f"{before}{e}{after}")]. *)
Inductive Event : Type :=
| Log (lvl : Level) (msg : string) (fields : list (string * Field))
| Print (text : string)
| PrintExc (before : string) (e : Exception) (after : string).

Definition opt_field (o : option string) : Field :=
  match o with
  | Some s => FStr s
  | None => FNone
  end.

Definition num_field (o : option Q) : Field :=
  match o with
  | Some q => FNum q
  | None => FNone
  end.

Definition int_field (o : option Z) : Field :=
  match o with
  | Some n => FInt n
  | None => FNone
  end.

(** ** Data model *)

(** One entry of the [llm] block of the configuration file.  [provider]
    and [model_name] are what [get] returns: [None] for an absent key and
    for a null.  For the two keys read with a default the two are kept
    apart: [None] is an absent key, [Some None] a null. *)
Record LLMConfig : Type := {
  provider : option string;
  model_name : option string;
  temperature : option (option Q);
  max_output_tokens : option (option Z)
}.

Record EmbeddingConfig : Type := {
  emb_model_name : option string
}.

(** The dictionary returned by [load_config()]: its keys in the dict's
    order, and the two blocks the loader reads. *)
Record Config : Type := {
  config_keys : list string;
  embedding_model : option EmbeddingConfig;
  llm : option (gmap string LLMConfig)
}.

Inductive ClientClass : Type := ChatOpenAI | ChatGoogleGenerativeAI | ChatGroq.

(** A constructed chat client: its class and the keyword arguments it was
    built with.  A temperature of [None] is Python's [None]; for the token
    budget [None] is no argument at all ([ChatGroq] takes none) and
    [Some None] is Python's [None]. *)
Record LLM : Type := {
  llm_class : ClientClass;
  llm_model : option string;
  llm_temperature : option Q;
  llm_max_tokens : option (option Z)
}.

Record Embeddings : Type := {
  emb_model : string
}.

Record Document : Type := {
  page_content : string;
  metadata : gmap string string
}.

(** [self.api_keys]: a dict with insertion order, values possibly [None]. *)
Abbreviation ApiKeys := (list (string * option string)).

Record ModelLoader : Type := {
  api_keys : ApiKeys;
  config : Config
}.

(** A FAISS store is modelled by the records it holds, in insertion order. *)
Abbreviation VectorStore := (list Document).

(** The part of the process state the two scripts read or write. *)
Record World : Type := {
  environ : gmap string string;
  (** existing paths, each with the names of its entries *)
  listing : gmap string (list string);
  (** persisted [index.faiss] (with its pickle), by directory *)
  faiss_files : gmap string VectorStore;
  console : list Event
}.

(** ** The monad *)

Inductive Res (A : Type) : Type :=
| Ok (a : A)
| Raise (e : Exception).
Arguments Ok {A} a.
Arguments Raise {A} e.

Definition M (A : Type) : Type := World -> Res A * World.

Definition ret {A} (a : A) : M A := fun w => (Ok a, w).

Definition bind {A B} (m : M A) (k : A -> M B) : M B :=
  fun w =>
    match m w with
    | (Ok a, w') => k a w'
    | (Raise e, w') => (Raise e, w')
    end.

Notation "x <- c1 ;; c2" := (bind c1 (fun x => c2))
  (at level 100, c1 at next level, right associativity).
Notation "c1 ;; c2" := (bind c1 (fun _ => c2))
  (at level 100, right associativity).

Definition raise {A} (e : Exception) : M A := fun w => (Raise e, w).

(** [try: body  except Exception as e: handler e]. *)
Definition try_except {A} (body : M A) (handler : Exception -> M A) : M A :=
  fun w =>
    match body w with
    | (Ok a, w') => (Ok a, w')
    | (Raise e, w') => if is_Exception e then handler e w' else (Raise e, w')
    end.

(** The world after [evs] have been written to the console and the log. *)
Definition say (evs : list Event) (w : World) : World :=
  {| environ := environ w; listing := listing w;
     faiss_files := faiss_files w; console := console w ++ evs |}.

Definition emit (ev : Event) : M unit := fun w => (Ok tt, say [ev] w).

Definition log_info (msg : string) (fields : list (string * Field)) : M unit :=
  emit (Log INFO msg fields).
Definition log_warning (msg : string) (fields : list (string * Field)) : M unit :=
  emit (Log WARNING msg fields).
Definition log_error (msg : string) (fields : list (string * Field)) : M unit :=
  emit (Log ERROR msg fields).
Definition print (text : string) : M unit := emit (Print text).

Definition sys_exit {A} (code : Z) : M A := raise (SystemExit code).

Definition getenv (k : string) : M (option string) :=
  fun w => (Ok (environ w !! k), w).

(** ** Python truthiness *)

(** [bool(v)] for [v] a string or [None]. *)
Definition truthy (v : option string) : bool :=
  match v with
  | Some s => negb (String.eqb s "")
  | None => false
  end.

(** [a or b]. *)
Definition py_or (a b : option string) : option string :=
  if truthy a then a else b.

(** [d.get(k)] on a dict whose values may be [None]. *)
Fixpoint dict_get (k : string) (d : ApiKeys) : option string :=
  match d with
  | [] => None
  | (k', v) :: d' => if String.eqb k k' then v else dict_get k d'
  end.

(** ** Third-party collaborators *)

Record Externals : Type := {
  (** [load_dotenv()]: the environment after the [.env] file is merged *)
  load_dotenv : gmap string string -> gmap string string;
  (** [load_config()] *)
  load_config : Res Config;
  (** a chat-client constructor raises with this text, if any *)
  chat_fault : ClientClass -> option string -> option Q -> option (option Z) -> option string;
  (** [GoogleGenerativeAIEmbeddings(model=...)] raises with this text, if any *)
  embeddings_fault : string -> option string;
  (** [PyPDFLoader(path).load()]: the pages, or the text of the exception *)
  pdf_load : string -> string + list Document;
  (** [RecursiveCharacterTextSplitter(size, overlap).split_documents(docs)] *)
  split_documents : Z -> Z -> list Document -> string + list Document;
  (** embedding a batch of records raises with this text, if any *)
  embed_fault : list Document -> option string;
  (** [FAISS.load_local(dir, ...)] raises with this text, if any *)
  faiss_load_fault : string -> option string;
  (** [vectorstore.save_local(dir)] raises with this text, if any *)
  faiss_save_fault : string -> option string;
  (** what a [save_local] that raised leaves at [dir], given the store it
      was writing and what was there *)
  failed_save : string -> VectorStore -> option VectorStore -> option VectorStore;
  (** [str(Path(dir) / name)] *)
  child_path : string -> string -> string;
  (** [Path(dir).mkdir(parents=True, exist_ok=True)] on the given listings:
      the text of the exception it raises, if any, and the listings it
      leaves *)
  mkdir_outcome : string -> gmap string (list string)
                  -> option string * gmap string (list string)
}.

Section Backend.

Variable ext : Externals.

(** ** [utils/model_loader.py] *)

Definition no_keys_message : string :=
  "No LLM API keys configured. Please set at least one: GOOGLE_API_KEY, GROQ_API_KEY, or OPENAI_API_KEY".

(** [[k for k, v in self.api_keys.items() if v]] *)
Definition available_providers (keys : ApiKeys) : list string :=
  map fst (List.filter (fun kv => truthy (snd kv)) keys).

(** [ModelLoader._validate_env]; the value returned is [self.api_keys]. *)
Definition _validate_env : M ApiKeys :=
  g1 <- getenv "GOOGLE_API_KEY" ;;
  g2 <- getenv "GEMINI_API_KEY" ;;
  let google_key := py_or g1 g2 in
  groq_key <- getenv "GROQ_API_KEY" ;;
  openai_key <- getenv "OPENAI_API_KEY" ;;
  let keys := [("GOOGLE_API_KEY", google_key);
               ("GROQ_API_KEY", groq_key);
               ("OPENAI_API_KEY", openai_key)] in
  match available_providers keys with
  | [] =>
      log_error "No API keys found"
        [("hint", FStr "Set at least one: GOOGLE_API_KEY, GROQ_API_KEY, or OPENAI_API_KEY")] ;;
      raise (DocumentPortalException no_keys_message)
  | _ :: _ =>
      log_info "Available LLM providers"
        [("providers", FStrs (available_providers keys))] ;;
      ret keys
  end.

(** The world after [load_dotenv()]. *)
Definition dotenv_world (w : World) : World :=
  {| environ := load_dotenv ext (environ w); listing := listing w;
     faiss_files := faiss_files w; console := console w |}.

(** [ModelLoader.__init__] *)
Definition ModelLoader_init : M ModelLoader :=
  (fun w => (Ok tt, dotenv_world w)) ;;
  keys <- _validate_env ;;
  c <- (fun w => (load_config ext, w)) ;;
  log_info "Configuration loaded successfully" [("config_keys", FStrs (config_keys c))] ;;
  ret {| api_keys := keys; config := c |}.

Definition GoogleGenerativeAIEmbeddings (model : string) : M Embeddings :=
  match embeddings_fault ext model with
  | Some msg => raise (LibraryError msg)
  | None => ret {| emb_model := model |}
  end.

(** [self.config["embedding_model"]["model_name"]] *)
Definition embedding_model_name (c : Config) : M string :=
  match embedding_model c with
  | None => raise (KeyError "embedding_model")
  | Some ec =>
      match emb_model_name ec with
      | None => raise (KeyError "model_name")
      | Some m => ret m
      end
  end.

(** [ModelLoader.load_embeddings] *)
Definition load_embeddings (self : ModelLoader) : M Embeddings :=
  try_except
    (log_info "Loading embedding model....." [] ;;
     model <- embedding_model_name (config self) ;;
     if negb (truthy (dict_get "GOOGLE_API_KEY" (api_keys self)))
     then raise (ValueError "GOOGLE_API_KEY not found. Embeddings require Google Gemini API.")
     else GoogleGenerativeAIEmbeddings model)
    (fun e =>
       log_error "Error loading embedding model" [("error", FStr (py_str e))] ;;
       raise (DocumentPortalException ("Failed to load embedding model: " +:+ py_str e))).

(** A chat-client constructor call. *)
Definition construct (cls : ClientClass) (model : option string) (temp : option Q)
    (max_tokens : option (option Z)) : M LLM :=
  match chat_fault ext cls model temp max_tokens with
  | Some msg => raise (LibraryError msg)
  | None => ret {| llm_class := cls; llm_model := model;
                   llm_temperature := temp; llm_max_tokens := max_tokens |}
  end.

(** The list [provider_priority] built at the top of [load_llm]. *)
Definition provider_priority (keys : ApiKeys) : list string :=
  (if truthy (dict_get "OPENAI_API_KEY" keys) then ["openai"] else []) ++
  (if truthy (dict_get "GOOGLE_API_KEY" keys) then ["google"] else []) ++
  (if truthy (dict_get "GROQ_API_KEY" keys) then ["groq"] else []).

Definition class_name (cls : ClientClass) : string :=
  match cls with
  | ChatOpenAI => "ChatOpenAI"
  | ChatGoogleGenerativeAI => "ChatGoogleGenerativeAI"
  | ChatGroq => "ChatGroq"
  end.

(** The [if provider == ... elif ...] chain: which class the entry's
    [provider] field selects, if any. *)
Definition dispatch (p : option string) : option ClientClass :=
  match p with
  | Some s =>
      if String.eqb s "openai" then Some ChatOpenAI
      else if String.eqb s "google" then Some ChatGoogleGenerativeAI
      else if String.eqb s "groq" then Some ChatGroq
      else None
  | None => None
  end.

(** The body of the [try] for an entry that is in [llm_block].  [Some llm]
    is [return llm]; [None] is falling off the end of the [if] chain, after
    which the loop goes on to its next iteration. *)
Definition try_entry (llm_config : LLMConfig) : M (option LLM) :=
  let p := provider llm_config in
  let model := model_name llm_config in
  let temp := default (Some (2 # 10)%Q) (temperature llm_config) in
  let max_tokens := default (Some 2048%Z) (max_output_tokens llm_config) in
  log_info "Loading LLM"
    [("provider", opt_field p); ("model", opt_field model);
     ("temperature", num_field temp); ("max_tokens", int_field max_tokens)] ;;
  match dispatch p with
  | Some cls =>
      client <- construct cls model temp
                  (match cls with ChatGroq => None | _ => Some max_tokens end) ;;
      log_info "Loaded LLM successfully" [("class_name", FStr (class_name cls))] ;;
      ret (Some client)
  | None => ret None
  end.

(** The [for provider_key in provider_priority] loop with the code after it. *)
Fixpoint load_llm_loop (llm_block : gmap string LLMConfig) (keys : list string)
    (last_error : option Exception) : M LLM :=
  match keys with
  | [] =>
      log_error "All LLM providers failed" [("error", FStr (py_str_opt last_error))] ;;
      raise (DocumentPortalException
               ("Could not load any LLM provider. Last error: " +:+ py_str_opt last_error))
  | provider_key :: rest =>
      fun w =>
        match llm_block !! provider_key with
        | None => load_llm_loop llm_block rest last_error w
        | Some llm_config =>
            match try_entry llm_config w with
            | (Ok (Some client), w') => (Ok client, w')
            | (Ok None, w') => load_llm_loop llm_block rest last_error w'
            | (Raise e, w') =>
                if is_Exception e then
                  (log_warning "LLM provider failed, trying next"
                     [("provider", FStr provider_key); ("error", FStr (py_str e))] ;;
                   load_llm_loop llm_block rest (Some e)) w'
                else (Raise e, w')
            end
        end
  end.

(** [ModelLoader.load_llm] *)
Definition load_llm (self : ModelLoader) : M LLM :=
  match llm (config self) with
  | None => raise (KeyError "llm")
  | Some llm_block =>
      match provider_priority (api_keys self) with
      | [] =>
          log_error "No LLM API keys available" [] ;;
          raise (ValueError "No LLM API keys configured")
      | keys => load_llm_loop llm_block keys None
      end
  end.

(** ** [ingest_rag_docs.py] *)

(** [str(docs_path / name)], as pathlib renders it. *)
Definition path_join (dir name : string) : string := child_path ext dir name.

(** [name] matches the glob pattern [*.pdf]. *)
Definition is_pdf (name : string) : bool :=
  let n := String.length name in
  (4 <=? n)%nat && String.eqb (substring (n - 4) 4 name) ".pdf".

(** [docs_path.exists()] *)
Definition path_exists (path : string) : M bool :=
  fun w => (Ok (match listing w !! path with Some _ => true | None => false end), w).

(** [list(docs_path.glob("*.pdf"))], as file names. *)
Definition glob_pdf (path : string) : M (list string) :=
  fun w => (Ok (List.filter is_pdf (default [] (listing w !! path))), w).

(** [vectorstore_path.mkdir(parents=True, exist_ok=True)] *)
Definition mkdir (path : string) : M unit :=
  fun w =>
    match mkdir_outcome ext path (listing w) with
    | (fault, made) =>
        let w' := {| environ := environ w; listing := made;
                     faiss_files := faiss_files w; console := console w |} in
        match fault with
        | Some msg => (Raise (LibraryError msg), w')
        | None => (Ok tt, w')
        end
    end.

(** [(vectorstore_path / "index.faiss").exists()] *)
Definition index_file_exists (dir : string) : M bool :=
  fun w => (Ok (match faiss_files w !! dir with Some _ => true | None => false end), w).

Definition PyPDFLoader_load (path : string) : M (list Document) :=
  match pdf_load ext path with
  | inl msg => raise (LibraryError msg)
  | inr docs => ret docs
  end.

Definition splitter_split_documents (chunk_size chunk_overlap : Z)
    (docs : list Document) : M (list Document) :=
  match split_documents ext chunk_size chunk_overlap docs with
  | inl msg => raise (LibraryError msg)
  | inr chunks => ret chunks
  end.

Definition FAISS_load_local (dir : string) (embeddings : Embeddings) : M VectorStore :=
  fun w =>
    match faiss_load_fault ext dir, faiss_files w !! dir with
    | Some msg, _ => (Raise (LibraryError msg), w)
    | None, Some store => (Ok store, w)
    | None, None => (Raise (LibraryError "index file not found"), w)
    end.

Definition FAISS_from_documents (chunks : list Document) (embeddings : Embeddings)
    : M VectorStore :=
  match embed_fault ext chunks with
  | Some msg => raise (LibraryError msg)
  | None => ret chunks
  end.

(** [vectorstore.add_documents(chunks)]; the value is the updated store. *)
Definition add_documents (store : VectorStore) (chunks : list Document) : M VectorStore :=
  match embed_fault ext chunks with
  | Some msg => raise (LibraryError msg)
  | None => ret (store ++ chunks)
  end.

Definition save_local (store : VectorStore) (dir : string) : M unit :=
  fun w =>
    match faiss_save_fault ext dir with
    | Some msg =>
        (Raise (LibraryError msg),
         {| environ := environ w; listing := listing w;
            faiss_files := partial_alter (failed_save ext dir store) dir (faiss_files w);
            console := console w |})
    | None =>
        (Ok tt, {| environ := environ w; listing := listing w;
                   faiss_files := <[dir := store]> (faiss_files w);
                   console := console w |})
    end.

(** The two assignments to [doc.metadata] in the load loop. *)
Definition tag (name path : string) (doc : Document) : Document :=
  {| page_content := page_content doc;
     metadata := <["source_path" := path]> (<["source_file" := name]> (metadata doc)) |}.

(** The body of the [try] of the load loop; the value is what is appended
    to [all_documents]. *)
Definition load_pdf (docs_dir name : string) : M (list Document) :=
  log_info "Loading PDF" [("file", FStr name)] ;;
  print ("  Loading " +:+ name +:+ "...") ;;
  docs <- PyPDFLoader_load (path_join docs_dir name) ;;
  let docs := map (tag name (path_join docs_dir name)) docs in
  print ("✓ (" +:+ pretty (length docs) +:+ " pages)") ;;
  log_info "PDF loaded" [("file", FStr name); ("pages", FInt (Z.of_nat (length docs)))] ;;
  ret docs.

(** [for pdf_file in pdf_files: try: ... except Exception as e: ... continue] *)
Fixpoint load_loop (docs_dir : string) (pdf_files : list string)
    (all_documents : list Document) : M (list Document) :=
  match pdf_files with
  | [] => ret all_documents
  | name :: rest =>
      all_documents' <-
        try_except
          (docs <- load_pdf docs_dir name ;; ret (all_documents ++ docs))
          (fun e =>
             log_error "Failed to load PDF" [("file", FStr name); ("error", FStr (py_str e))] ;;
             print ("✗ Error: " +:+ py_str e) ;;
             ret all_documents) ;;
      load_loop docs_dir rest all_documents'
  end.

(** [for pdf in pdf_files: print(f"  - {pdf.name}")] *)
Fixpoint print_names (names : list string) : M unit :=
  match names with
  | [] => ret tt
  | name :: rest => print ("  - " +:+ name) ;; print_names rest
  end.

(** The [try] block that creates or updates the index. *)
Definition build_index (vectorstore_dir : string) (embeddings : Embeddings)
    (chunks : list Document) : M unit :=
  found <- index_file_exists vectorstore_dir ;;
  vectorstore <-
    (if found : bool then
       log_info "Existing FAISS index found, loading..." [] ;;
       print "  Found existing index, loading..." ;;
       vectorstore <- FAISS_load_local vectorstore_dir embeddings ;;
       log_info "Adding new documents to existing index" [] ;;
       print "  Adding new documents to existing index..." ;;
       add_documents vectorstore chunks
     else
       log_info "Creating new FAISS index" [] ;;
       print "  Creating new FAISS index..." ;;
       FAISS_from_documents chunks embeddings) ;;
  save_local vectorstore vectorstore_dir ;;
  log_info "FAISS index saved" [("path", FStr vectorstore_dir)] ;;
  print ("✅ FAISS index saved to: " +:+ vectorstore_dir +:+ LF).

(** Lines 45-53: the guard on the embedding credential. *)
Definition check_credentials : M unit :=
  g1 <- getenv "GOOGLE_API_KEY" ;;
  g2 <- getenv "GEMINI_API_KEY" ;;
  if negb (truthy g1) && negb (truthy g2) then
    log_error "No GOOGLE_API_KEY or GEMINI_API_KEY found in environment" [] ;;
    print (LF +:+ "❌ Error: GOOGLE_API_KEY or GEMINI_API_KEY is required for embeddings.") ;;
    print "Please set it in your .env file:" ;;
    print "  GEMINI_API_KEY=your_api_key_here" ;;
    print (LF +:+ "Or export it:") ;;
    print ("  export GEMINI_API_KEY=your_api_key_here" +:+ LF) ;;
    sys_exit 1
  else ret tt.

(** Lines 55-79: discovery of the PDF files; the value is [pdf_files]. *)
Definition discover (docs_dir : string) : M (list string) :=
  found <- path_exists docs_dir ;;
  (if negb found then
     log_error "RAG docs directory not found" [("path", FStr docs_dir)] ;;
     print (LF +:+ "❌ Error: Directory not found: " +:+ docs_dir) ;;
     print ("Please create it and add PDF files:" +:+ LF) ;;
     print ("  mkdir -p " +:+ docs_dir) ;;
     print ("  # Then add your wellness PDFs to " +:+ docs_dir +:+ "/" +:+ LF) ;;
     sys_exit 1
   else ret tt) ;;
  pdf_files <- glob_pdf docs_dir ;;
  match pdf_files with
  | [] =>
      log_warning "No PDF files found in RAG docs directory" [("path", FStr docs_dir)] ;;
      print (LF +:+ "⚠️  No PDF files found in " +:+ docs_dir) ;;
      print ("Please add emotional wellness PDFs to ingest." +:+ LF) ;;
      sys_exit 1
  | _ :: _ => ret tt
  end ;;
  log_info "Found PDF files for ingestion"
    [("count", FInt (Z.of_nat (length pdf_files))); ("files", FStrs pdf_files)] ;;
  print (LF +:+ "📚 Found " +:+ pretty (length pdf_files) +:+ " PDF files to ingest:" +:+ LF) ;;
  print_names pdf_files ;;
  print "" ;;
  ret pdf_files.

(** Lines 81-92: the embedding client. *)
Definition load_model : M Embeddings :=
  try_except
    (log_info "Loading embeddings model..." [] ;;
     print "🔧 Loading Google embeddings model..." ;;
     model_loader <- ModelLoader_init ;;
     embeddings <- load_embeddings model_loader ;;
     log_info "Embeddings model loaded successfully" [] ;;
     print ("✅ Embeddings model loaded" +:+ LF) ;;
     ret embeddings)
    (fun e =>
       log_error "Failed to load embeddings model" [("error", FExc e)] ;;
       emit (PrintExc (LF +:+ "❌ Failed to load embeddings model: ") e LF) ;;
       sys_exit 1).

(** Lines 94-127: the load loop and the guard after it; the value is
    [all_documents]. *)
Definition load_all (docs_dir : string) (pdf_files : list string) : M (list Document) :=
  print "📖 Loading PDFs..." ;;
  all_documents <- load_loop docs_dir pdf_files [] ;;
  match all_documents with
  | [] =>
      log_error "No documents loaded successfully" [] ;;
      print (LF +:+ "❌ No documents were loaded successfully." +:+ LF) ;;
      sys_exit 1
  | _ :: _ => ret tt
  end ;;
  log_info "All PDFs loaded" [("total_pages", FInt (Z.of_nat (length all_documents)))] ;;
  print (LF +:+ "✅ Loaded " +:+ pretty (length all_documents) +:+ " total pages" +:+ LF) ;;
  ret all_documents.

(** Lines 129-138: splitting; the value is [chunks]. *)
Definition split_all (chunk_size chunk_overlap : Z) (all_documents : list Document)
    : M (list Document) :=
  print ("✂️  Splitting into chunks (size=" +:+ pretty chunk_size +:+ ", overlap="
         +:+ pretty chunk_overlap +:+ ")...") ;;
  chunks <- splitter_split_documents chunk_size chunk_overlap all_documents ;;
  log_info "Documents split into chunks" [("count", FInt (Z.of_nat (length chunks)))] ;;
  print ("✅ Created " +:+ pretty (length chunks) +:+ " chunks" +:+ LF) ;;
  ret chunks.

(** Lines 140-172: creation or update of the index. *)
Definition persist (vectorstore_dir : string) (embeddings : Embeddings)
    (chunks : list Document) : M unit :=
  print "🔨 Building FAISS vector index (this may take a while)..." ;;
  mkdir vectorstore_dir ;;
  try_except
    (build_index vectorstore_dir embeddings chunks)
    (fun e =>
       log_error "Failed to create FAISS index" [("error", FStr (py_str e))] ;;
       print (LF +:+ "❌ Failed to create FAISS index: " +:+ py_str e +:+ LF) ;;
       sys_exit 1).

(** Lines 174-185: the summary. *)
Definition summary (docs_dir vectorstore_dir : string) (pdf_files : list string)
    (total_pages : nat) (chunks : list Document) : M unit :=
  print (String.concat "" (repeat "=" 60)) ;;
  print "✨ RAG Ingestion Complete!" ;;
  print (String.concat "" (repeat "=" 60)) ;;
  print ("📁 Source directory:  " +:+ docs_dir) ;;
  print ("📄 PDFs processed:    " +:+ pretty (length pdf_files)) ;;
  print ("📃 Total pages:       " +:+ pretty total_pages) ;;
  print ("🧩 Chunks created:    " +:+ pretty (length chunks)) ;;
  print ("💾 Index saved to:    " +:+ vectorstore_dir) ;;
  print (String.concat "" (repeat "=" 60)) ;;
  print (LF +:+ "🚀 Your RAG system is ready!") ;;
  print ("Start the backend server: python app.py" +:+ LF).

(** [ingest_documents]; the defaults of its arguments are
    ["data/rag_docs"], ["rag/vectorstore"], [800] and [200]. *)
Definition ingest_documents (docs_dir vectorstore_dir : string)
    (chunk_size chunk_overlap : Z) : M unit :=
  check_credentials ;;
  pdf_files <- discover docs_dir ;;
  embeddings <- load_model ;;
  all_documents <- load_all docs_dir pdf_files ;;
  chunks <- split_all chunk_size chunk_overlap all_documents ;;
  persist vectorstore_dir embeddings chunks ;;
  summary docs_dir vectorstore_dir pdf_files (length all_documents) chunks.

End Backend.

(** ** What the loop of [load_llm] amounts to *)

(** The result of the [try] body on one configuration entry. *)
Inductive Attempt : Type :=
| Constructed (client : LLM)
| Failed (msg : string)
| NoClient.

(** [llm_config.get("temperature", 0.2)] *)
Definition entry_temperature (cfg : LLMConfig) : option Q :=
  default (Some (2 # 10)%Q) (temperature cfg).

(** [llm_config.get("max_output_tokens", 2048)] *)
Definition entry_max_tokens (cfg : LLMConfig) : option Z :=
  default (Some 2048%Z) (max_output_tokens cfg).

(** The token budget is passed to every class but [ChatGroq]. *)
Definition budget (cls : ClientClass) (cfg : LLMConfig) : option (option Z) :=
  match cls with
  | ChatGroq => None
  | _ => Some (entry_max_tokens cfg)
  end.

Definition outcome_of (ext : Externals) (cfg : LLMConfig) : Attempt :=
  match dispatch (provider cfg) with
  | None => NoClient
  | Some cls =>
      match chat_fault ext cls (model_name cfg) (entry_temperature cfg) (budget cls cfg) with
      | Some msg => Failed msg
      | None => Constructed {| llm_class := cls; llm_model := model_name cfg;
                               llm_temperature := entry_temperature cfg;
                               llm_max_tokens := budget cls cfg |}
      end
  end.

(** The record logged when an entry is taken up. *)
Definition loading_event (cfg : LLMConfig) : Event :=
  Log INFO "Loading LLM"
    [("provider", opt_field (provider cfg)); ("model", opt_field (model_name cfg));
     ("temperature", num_field (entry_temperature cfg));
     ("max_tokens", int_field (entry_max_tokens cfg))].

Definition loaded_event (cls : ClientClass) : Event :=
  Log INFO "Loaded LLM successfully" [("class_name", FStr (class_name cls))].

(** The warning logged when the constructor for [provider_key] raised. *)
Definition warning_event (provider_key msg : string) : Event :=
  Log WARNING "LLM provider failed, trying next"
    [("provider", FStr provider_key); ("error", FStr msg)].

Definition entry_events (ext : Externals) (cfg : LLMConfig) : list Event :=
  loading_event cfg ::
  match outcome_of ext cfg with
  | Constructed client => [loaded_event (llm_class client)]
  | _ => []
  end.

Definition is_loading (ev : Event) : bool :=
  match ev with
  | Log INFO msg _ => String.eqb msg "Loading LLM"
  | _ => false
  end.

Definition is_warning (ev : Event) : bool :=
  match ev with
  | Log WARNING _ _ => true
  | _ => false
  end.

Definition has_entry (llm_block : gmap string LLMConfig) (k : string) : bool :=
  match llm_block !! k with
  | Some _ => true
  | None => false
  end.

(** The environment slot that admits a provider key to [provider_priority]. *)
Definition credential_slot (provider_key : string) : string :=
  if String.eqb provider_key "openai" then "OPENAI_API_KEY"
  else if String.eqb provider_key "google" then "GOOGLE_API_KEY"
  else "GROQ_API_KEY".

Definition priority_order : list string := ["openai"; "google"; "groq"].

(** The provider keys with both a credential and a configuration entry. *)
Definition candidates (keys : ApiKeys) (llm_block : gmap string LLMConfig) : list string :=
  List.filter
    (fun k => truthy (dict_get (credential_slot k) keys) && has_entry llm_block k)
    priority_order.

(** The first client constructed along [keys], if any. *)
Fixpoint first_client (ext : Externals) (llm_block : gmap string LLMConfig)
    (keys : list string) : option LLM :=
  match keys with
  | [] => None
  | k :: rest =>
      match llm_block !! k with
      | Some cfg =>
          match outcome_of ext cfg with
          | Constructed client => Some client
          | _ => first_client ext llm_block rest
          end
      | None => first_client ext llm_block rest
      end
  end.

(** The entries taken up along [keys]: all up to and including the first
    one that yields a client. *)
Fixpoint attempted (ext : Externals) (llm_block : gmap string LLMConfig)
    (keys : list string) : list (string * LLMConfig) :=
  match keys with
  | [] => []
  | k :: rest =>
      match llm_block !! k with
      | Some cfg =>
          (k, cfg) ::
          match outcome_of ext cfg with
          | Constructed _ => []
          | _ => attempted ext llm_block rest
          end
      | None => attempted ext llm_block rest
      end
  end.

(** The value of [last_error] once [keys] are exhausted. *)
Fixpoint last_failure (ext : Externals) (llm_block : gmap string LLMConfig)
    (keys : list string) (last_error : option Exception) : option Exception :=
  match keys with
  | [] => last_error
  | k :: rest =>
      match llm_block !! k with
      | Some cfg =>
          match outcome_of ext cfg with
          | Failed msg => last_failure ext llm_block rest (Some (LibraryError msg))
          | _ => last_failure ext llm_block rest last_error
          end
      | None => last_failure ext llm_block rest last_error
      end
  end.

(** Everything the loop writes to the log along [keys]. *)
Fixpoint loop_events (ext : Externals) (llm_block : gmap string LLMConfig)
    (keys : list string) (last_error : option Exception) : list Event :=
  match keys with
  | [] => [Log ERROR "All LLM providers failed" [("error", FStr (py_str_opt last_error))]]
  | k :: rest =>
      match llm_block !! k with
      | Some cfg =>
          entry_events ext cfg ++
          match outcome_of ext cfg with
          | Constructed _ => []
          | Failed msg =>
              warning_event k msg :: loop_events ext llm_block rest (Some (LibraryError msg))
          | NoClient => loop_events ext llm_block rest last_error
          end
      | None => loop_events ext llm_block rest last_error
      end
  end.

Definition exhausted_message (last_error : option Exception) : string :=
  "Could not load any LLM provider. Last error: " +:+ py_str_opt last_error.

(** [needle in haystack] *)
Definition contains (needle haystack : string) : bool :=
  match String.index 0 needle haystack with
  | Some _ => true
  | None => false
  end.

(** Some credential is set and non-empty in [env]. *)
Definition has_credential (env : gmap string string) : bool :=
  truthy (env !! "GOOGLE_API_KEY") || truthy (env !! "GEMINI_API_KEY")
  || truthy (env !! "GROQ_API_KEY") || truthy (env !! "OPENAI_API_KEY").

(** [self.api_keys] as [_validate_env] computes it from [env]. *)
Definition keys_of (env : gmap string string) : ApiKeys :=
  [("GOOGLE_API_KEY", py_or (env !! "GOOGLE_API_KEY") (env !! "GEMINI_API_KEY"));
   ("GROQ_API_KEY", env !! "GROQ_API_KEY");
   ("OPENAI_API_KEY", env !! "OPENAI_API_KEY")].

Definition is_Raise {A} (r : Res A) : bool :=
  match r with
  | Raise _ => true
  | Ok _ => false
  end.

(** ** What the load loop amounts to *)

(** The tagged pages one file contributes to [all_documents]; none when
    the loader raises. *)
Definition pages_of (ext : Externals) (docs_dir name : string) : list Document :=
  match pdf_load ext (path_join ext docs_dir name) with
  | inr docs => map (tag name (path_join ext docs_dir name)) docs
  | inl _ => []
  end.

(** [all_documents] after the loop over [pdf_files]. *)
Definition loaded (ext : Externals) (docs_dir : string) (pdf_files : list string)
    : list Document :=
  concat (map (pages_of ext docs_dir) pdf_files).

(** The files discovery yields, when it yields any. *)
Definition pdf_files_in (w : World) (docs_dir : string) : list string :=
  List.filter is_pdf (default [] (listing w !! docs_dir)).

(** The index the ingestion leaves at [dir] when it is given [chunks]. *)
Definition updated_index (w : World) (dir : string) (chunks : list Document) : VectorStore :=
  match faiss_files w !! dir with
  | Some store => store ++ chunks
  | None => chunks
  end.

(** The record logged after splitting. *)
Definition split_event (chunks : list Document) : Event :=
  Log INFO "Documents split into chunks" [("count", FInt (Z.of_nat (length chunks)))].

(** The record logged on the branch the index step takes in [w]. *)
Definition index_event (w : World) (dir : string) : Event :=
  Log INFO (match faiss_files w !! dir with
            | Some _ => "Adding new documents to existing index"
            | None => "Creating new FAISS index"
            end) [].

(** [sum(len(doc.page_content) for doc in docs)] *)
Definition total_chars (docs : list Document) : Z :=
  fold_right (fun d n => (Z.of_nat (String.length (page_content d)) + n)%Z) 0%Z docs.

(** [ceil(n / 600) + 1] *)
Definition chunk_bound (n : Z) : Z := ((n + 599) / 600 + 1)%Z.

(** The record logged when loading [name] raised. *)
Definition load_failure_event (name msg : string) : Event :=
  Log ERROR "Failed to load PDF" [("file", FStr name); ("error", FStr msg)].

(** The embedding credential, under either of its two names. *)
Definition has_google (env : gmap string string) : bool :=
  truthy (env !! "GOOGLE_API_KEY") || truthy (env !! "GEMINI_API_KEY").

(** The embedding step of the ingestion goes through and yields the client
    for [model]. *)
Definition embeddings_ready (ext : Externals) (env : gmap string string) (model : string)
    : Prop :=
  has_google (load_dotenv ext env) = true
  /\ exists c ec,
       load_config ext = Ok c /\ embedding_model c = Some ec
       /\ emb_model_name ec = Some model /\ embeddings_fault ext model = None.

(** The variables [_validate_env] reads. *)
Definition credential_vars : list string :=
  ["GOOGLE_API_KEY"; "GEMINI_API_KEY"; "GROQ_API_KEY"; "OPENAI_API_KEY"].

(** An error or warning record, or a line on the console. *)
Definition is_diagnostic (ev : Event) : bool :=
  match ev with
  | Log ERROR _ _ | Log WARNING _ _ => true
  | _ => false
  end.

Definition is_print (ev : Event) : bool :=
  match ev with
  | Print _ | PrintExc _ _ _ => true
  | _ => false
  end.

(** ** Sample configurations, collaborators and worlds *)

Definition entry (p : option string) (model : string) : LLMConfig :=
  {| provider := p; model_name := Some model;
     temperature := Some (Some 0%Q); max_output_tokens := Some (Some 2048%Z) |}.

(** Every entry names its provider. *)
Definition full_block : gmap string LLMConfig :=
  list_to_map [("groq", entry (Some "groq") "llama-3.3-70b-versatile");
               ("google", entry (Some "google") "gemini-2.0-flash");
               ("openai", entry (Some "openai") "gpt-4o-mini")].

(** The entry under [openai] gives a model but no [provider] field. *)
Definition block_openai_unnamed : gmap string LLMConfig :=
  list_to_map [("google", entry (Some "google") "gemini-2.0-flash");
               ("openai", entry None "gpt-4o-mini")].

(** The entry under [google] gives a model but no [provider] field. *)
Definition block_google_unnamed : gmap string LLMConfig :=
  list_to_map [("google", entry None "gemini-2.0-flash");
               ("openai", entry (Some "openai") "gpt-4o-mini")].

(** Only Groq is configured. *)
Definition block_groq_only : gmap string LLMConfig :=
  list_to_map [("groq", entry (Some "groq") "llama-3.3-70b-versatile")].

Definition config_with (b : gmap string LLMConfig) : Config :=
  {| config_keys := ["embedding_model"; "llm"];
     embedding_model := Some {| emb_model_name := Some "models/text-embedding-004" |};
     llm := Some b |}.

Definition page (text : string) (n : string) : Document :=
  {| page_content := text; metadata := list_to_map [("page", n)] |}.

(** Collaborators that never fail, but for the chat constructors listed in
    [broken] and the PDF file [broken.pdf].  Every other PDF has the same
    three short pages.  The splitter is covered for pages that fit in one
    chunk, which it returns as they are, one chunk a page.  The source
    directory is given by a plain relative path, under which pathlib names
    a file by directory, slash and file name; [mkdir] adds a missing
    directory and leaves an existing one. *)
Definition externals (b : gmap string LLMConfig) (broken : list ClientClass) : Externals :=
  {| load_dotenv := fun env => env;
     load_config := Ok (config_with b);
     chat_fault := fun cls _ _ _ =>
       if existsb (fun c => String.eqb (class_name c) (class_name cls)) broken
       then Some "model not found" else None;
     embeddings_fault := fun _ => None;
     pdf_load := fun path =>
       if String.eqb path "data/rag_docs/broken.pdf" then inl "EOF marker not found"
       else inr [page "Breathe in." "0"; page "Breathe out." "1"; page "Rest." "2"];
     split_documents := fun chunk_size _ docs =>
       if forallb (fun d => (Z.of_nat (String.length (page_content d)) <=? chunk_size)%Z) docs
       then inr docs else inl "page longer than one chunk";
     embed_fault := fun _ => None;
     faiss_load_fault := fun _ => None;
     faiss_save_fault := fun _ => None;
     failed_save := fun _ _ old => old;
     child_path := fun dir name => dir +:+ "/" +:+ name;
     mkdir_outcome := fun path dirs =>
       (None, match dirs !! path with
              | Some _ => dirs
              | None => <[path := []]> dirs
              end) |}.

Definition world (env : list (string * string)) (files : list string)
    (index : option VectorStore) : World :=
  {| environ := list_to_map env;
     listing := list_to_map [("data/rag_docs", files)];
     faiss_files := match index with
                    | Some store => list_to_map [("rag/vectorstore", store)]
                    | None => ∅
                    end;
     console := [] |}.

Definition loader (env : list (string * string)) (b : gmap string LLMConfig) : ModelLoader :=
  {| api_keys := keys_of (list_to_map env); config := config_with b |}.

Definition env_openai_google : list (string * string) :=
  [("OPENAI_API_KEY", "sk-test"); ("GOOGLE_API_KEY", "g-test")].

Definition env_gemini : list (string * string) := [("GEMINI_API_KEY", "g-test")].

Definition env_openai : list (string * string) := [("OPENAI_API_KEY", "sk-test")].

(** The pages of [calm.pdf] as the load loop leaves them. *)
Definition calm_pages : list Document :=
  map (tag "calm.pdf" "data/rag_docs/calm.pdf")
    [page "Breathe in." "0"; page "Breathe out." "1"; page "Rest." "2"].

(** An index left by an earlier run. *)
Definition earlier_index : VectorStore :=
  [tag "sleep.pdf" "data/rag_docs/sleep.pdf" (page "Sleep well." "0")].

(** ** [exception/custom_exception.py] *)

(** What [__init__] reads off [error_details.exc_info()] when a traceback
    is at hand: [exc_tb.tb_frame.f_code.co_filename], [exc_tb.tb_lineno]
    and the joined lines of [traceback.format_exception]. *)
Record ExcInfo : Type := {
  co_filename : string;
  tb_lineno : Z;
  formatted_exception : string
}.

(** [DocumentPortalException.__init__] for a text [error_message], which
    [str] leaves as it is; [exc_info] is [None] when [exc_tb is None]. *)
Definition DocumentPortalException_init (error_message : string)
    (exc_info : option ExcInfo) : DocumentPortalError :=
  match exc_info with
  | Some tb =>
      {| error_message := error_message;
         file_name := co_filename tb;
         lineno := tb_lineno tb;
         traceback_str := formatted_exception tb |}
  | None => without_traceback error_message
  end.

(** ** Worlds the ingestion leaves behind *)

(** The world, console apart, after a run of [ingest_documents] in which
    [mkdir] left the listings [made] and [chunks] were written to the
    index at [dir]. *)
Definition ingested_world (ext : Externals) (w : World) (dir : string)
    (chunks : list Document) (made : gmap string (list string)) : World :=
  {| environ := load_dotenv ext (environ w);
     listing := made;
     faiss_files := <[dir := updated_index w dir chunks]> (faiss_files w);
     console := console w |}.

(** The world, console apart, after a run that got past [mkdir], which
    left the listings [made], and wrote no index. *)
Definition prepared_world (ext : Externals) (w : World)
    (made : gmap string (list string)) : World :=
  {| environ := load_dotenv ext (environ w);
     listing := made;
     faiss_files := faiss_files w;
     console := console w |}.

(** The index step meets a failure before it saves: loading the existing
    index, or embedding the chunks. *)
Definition fails_before_save (ext : Externals) (w : World) (dir : string)
    (chunks : list Document) : Prop :=
  (faiss_files w !! dir <> None /\ faiss_load_fault ext dir <> None)
  \/ embed_fault ext chunks <> None.

(** ** More sample collaborators *)

(** [ext] with an embedding constructor that always raises. *)
Definition with_embedding_fault (ext : Externals) (msg : string) : Externals :=
  {| load_dotenv := load_dotenv ext; load_config := load_config ext;
     chat_fault := chat_fault ext; embeddings_fault := fun _ => Some msg;
     pdf_load := pdf_load ext; split_documents := split_documents ext;
     embed_fault := embed_fault ext; faiss_load_fault := faiss_load_fault ext;
     faiss_save_fault := faiss_save_fault ext; failed_save := failed_save ext;
     child_path := child_path ext; mkdir_outcome := mkdir_outcome ext |}.

(** [ext] with a splitter that always raises. *)
Definition with_splitter_fault (ext : Externals) (msg : string) : Externals :=
  {| load_dotenv := load_dotenv ext; load_config := load_config ext;
     chat_fault := chat_fault ext; embeddings_fault := embeddings_fault ext;
     pdf_load := pdf_load ext; split_documents := fun _ _ _ => inl msg;
     embed_fault := embed_fault ext; faiss_load_fault := faiss_load_fault ext;
     faiss_save_fault := faiss_save_fault ext; failed_save := failed_save ext;
     child_path := child_path ext; mkdir_outcome := mkdir_outcome ext |}.

(** [ext] with an embedding service that always raises. *)
Definition with_embed_fault (ext : Externals) (msg : string) : Externals :=
  {| load_dotenv := load_dotenv ext; load_config := load_config ext;
     chat_fault := chat_fault ext; embeddings_fault := embeddings_fault ext;
     pdf_load := pdf_load ext; split_documents := split_documents ext;
     embed_fault := fun _ => Some msg; faiss_load_fault := faiss_load_fault ext;
     faiss_save_fault := faiss_save_fault ext; failed_save := failed_save ext;
     child_path := child_path ext; mkdir_outcome := mkdir_outcome ext |}.

(** [ext] with a [save_local] that always raises. *)
Definition with_save_fault (ext : Externals) (msg : string) : Externals :=
  {| load_dotenv := load_dotenv ext; load_config := load_config ext;
     chat_fault := chat_fault ext; embeddings_fault := embeddings_fault ext;
     pdf_load := pdf_load ext; split_documents := split_documents ext;
     embed_fault := embed_fault ext; faiss_load_fault := faiss_load_fault ext;
     faiss_save_fault := fun _ => Some msg; failed_save := failed_save ext;
     child_path := child_path ext; mkdir_outcome := mkdir_outcome ext |}.

(** [ext] with a [mkdir] that always raises and creates nothing. *)
Definition with_mkdir_fault (ext : Externals) (msg : string) : Externals :=
  {| load_dotenv := load_dotenv ext; load_config := load_config ext;
     chat_fault := chat_fault ext; embeddings_fault := embeddings_fault ext;
     pdf_load := pdf_load ext; split_documents := split_documents ext;
     embed_fault := embed_fault ext; faiss_load_fault := faiss_load_fault ext;
     faiss_save_fault := faiss_save_fault ext; failed_save := failed_save ext;
     child_path := child_path ext; mkdir_outcome := fun _ dirs => (Some msg, dirs) |}.

(** A configuration without the [embedding_model] block. *)
Definition config_without_embedding (b : gmap string LLMConfig) : Config :=
  {| config_keys := ["llm"]; embedding_model := None; llm := Some b |}.

(** An entry whose [temperature] is a null and which has no
    [max_output_tokens]. *)
Definition entry_null_temperature : LLMConfig :=
  {| provider := Some "openai"; model_name := Some "gpt-4o-mini";
     temperature := Some None; max_output_tokens := None |}.

Definition block_null_temperature : gmap string LLMConfig :=
  {[ "openai" := entry_null_temperature ]}.

(** * Properties of the model loader *)

Section ModelLoaderProperties.

Variable ext : Externals.

Lemma say_app (a b : list Event) (w : World) : say b (say a w) = say (a ++ b) w.
Proof. unfold say; simpl. by rewrite app_assoc. Qed.

Lemma say_nil (w : World) : say [] w = w.
Proof. destruct w; unfold say; simpl. by rewrite app_nil_r. Qed.

Lemma validate_env_run (w : World) :
  _validate_env w =
  if has_credential (environ w)
  then (Ok (keys_of (environ w)),
        say [Log INFO "Available LLM providers"
               [("providers", FStrs (available_providers (keys_of (environ w))))]] w)
  else (Raise (DocumentPortalException no_keys_message),
        say [Log ERROR "No API keys found"
               [("hint", FStr "Set at least one: GOOGLE_API_KEY, GROQ_API_KEY, or OPENAI_API_KEY")]] w).
Proof.
  unfold _validate_env, has_credential, keys_of, available_providers, bind, getenv, py_or.
  cbn [List.filter map fst snd].
  destruct (truthy (environ w !! "GOOGLE_API_KEY")) eqn:Hg;
  destruct (truthy (environ w !! "GEMINI_API_KEY")) eqn:Hm;
  destruct (truthy (environ w !! "GROQ_API_KEY")) eqn:Hq;
  destruct (truthy (environ w !! "OPENAI_API_KEY")) eqn:Ho;
  rewrite ?Hg, ?Hm; reflexivity.
Qed.

Lemma has_credential_true (env : gmap string string) :
  has_credential env = true <->
  exists k, In k credential_vars /\ truthy (env !! k) = true.
Proof.
  unfold has_credential, credential_vars. rewrite !orb_true_iff. split.
  - intros [[[H|H]|H]|H]; eexists; (split; [|exact H]); cbn [In]; tauto.
  - intros (k & Hk & H). cbn [In] in Hk.
    destruct Hk as [<-|[<-|[<-|[<-|[]]]]]; tauto.
Qed.

Lemma has_credential_false (env : gmap string string) :
  has_credential env = false <->
  forall k, In k credential_vars -> truthy (env !! k) = false.
Proof.
  rewrite <- not_true_iff_false, has_credential_true. split.
  - intros H k Hk. apply not_true_iff_false. intros Ht. apply H. eauto.
  - intros H (k & Hk & Ht). rewrite (H k Hk) in Ht. discriminate.
Qed.

Lemma dict_get_keys_of (env : gmap string string) :
  dict_get "GOOGLE_API_KEY" (keys_of env) = py_or (env !! "GOOGLE_API_KEY") (env !! "GEMINI_API_KEY")
  /\ dict_get "GROQ_API_KEY" (keys_of env) = env !! "GROQ_API_KEY"
  /\ dict_get "OPENAI_API_KEY" (keys_of env) = env !! "OPENAI_API_KEY".
Proof. repeat split; reflexivity. Qed.

Lemma truthy_py_or (a b : option string) : truthy (py_or a b) = truthy a || truthy b.
Proof. unfold py_or. destruct (truthy a) eqn:Ha; [exact Ha | reflexivity]. Qed.

Lemma available_providers_keys_of (env : gmap string string) :
  available_providers (keys_of env) <> [] <-> has_credential env = true.
Proof.
  unfold available_providers, keys_of, has_credential.
  cbn [List.filter map fst snd]. rewrite truthy_py_or.
  destruct (truthy (env !! "GOOGLE_API_KEY")), (truthy (env !! "GEMINI_API_KEY")),
    (truthy (env !! "GROQ_API_KEY")), (truthy (env !! "OPENAI_API_KEY"));
    cbn; split; congruence.
Qed.

Lemma provider_priority_keys_of (env : gmap string string) :
  provider_priority (keys_of env) <> [] <-> has_credential env = true.
Proof.
  unfold provider_priority. destruct (dict_get_keys_of env) as (-> & -> & ->).
  rewrite truthy_py_or. unfold has_credential.
  destruct (truthy (env !! "GOOGLE_API_KEY")), (truthy (env !! "GEMINI_API_KEY")),
    (truthy (env !! "GROQ_API_KEY")), (truthy (env !! "OPENAI_API_KEY"));
    cbn; split; congruence.
Qed.

Lemma available_providers_slots (keys : ApiKeys) (slot : string) :
  In slot (available_providers keys) -> In slot (map fst keys).
Proof.
  unfold available_providers. rewrite !in_map_iff.
  intros (kv & Hkv & Hin). apply filter_In in Hin as [Hin _]. eauto.
Qed.

Lemma available_providers_truthy (keys : ApiKeys) :
  List.NoDup (map fst keys) ->
  forall slot, In slot (available_providers keys) <-> truthy (dict_get slot keys) = true.
Proof.
  induction keys as [|[k v] rest IH]; intros Hnd slot.
  - cbn. split; [tauto | discriminate].
  - cbn [map fst] in Hnd. apply List.NoDup_cons_iff in Hnd as [Hk Hnd].
    specialize (IH Hnd slot). unfold available_providers in *.
    cbn [List.filter map fst snd dict_get].
    destruct (String.eqb slot k) eqn:Hs.
    + apply String.eqb_eq in Hs as ->. destruct (truthy v) eqn:Hv.
      * cbn [map fst In]. tauto.
      * split; [|discriminate]. intros Hin. exfalso. apply Hk.
        by apply available_providers_slots.
    + apply String.eqb_neq in Hs. rewrite <- IH. destruct (truthy v).
      * cbn [map fst In]. split; [intros [Heq|Hin]; [congruence | exact Hin] | tauto].
      * reflexivity.
Qed.

(** C4: [_validate_env] succeeds whenever some credential variable is set
    and non-empty, recording every slot in [self.api_keys] and logging the
    list of available providers, which holds the slots with a non-empty
    credential and no other, in the order of the mapping; when none is set
    it raises the repository's exception, whose message names variables
    each of which would make validation succeed. *)
Theorem validate_env_credentials (w : World) :
  ((exists k, In k credential_vars /\ truthy (environ w !! k) = true) ->
   exists keys,
     _validate_env w =
       (Ok keys,
        say [Log INFO "Available LLM providers"
               [("providers", FStrs (available_providers keys))]] w)
     /\ available_providers keys <> []
     /\ truthy (dict_get "GOOGLE_API_KEY" keys)
        = truthy (environ w !! "GOOGLE_API_KEY") || truthy (environ w !! "GEMINI_API_KEY")
     /\ dict_get "GROQ_API_KEY" keys = environ w !! "GROQ_API_KEY"
     /\ dict_get "OPENAI_API_KEY" keys = environ w !! "OPENAI_API_KEY"
     /\ keys
        = [("GOOGLE_API_KEY",
            if truthy (environ w !! "GOOGLE_API_KEY") then environ w !! "GOOGLE_API_KEY"
            else environ w !! "GEMINI_API_KEY");
           ("GROQ_API_KEY", environ w !! "GROQ_API_KEY");
           ("OPENAI_API_KEY", environ w !! "OPENAI_API_KEY")]
     /\ available_providers keys
        = (if truthy (environ w !! "GOOGLE_API_KEY") || truthy (environ w !! "GEMINI_API_KEY")
           then ["GOOGLE_API_KEY"] else [])
          ++ (if truthy (environ w !! "GROQ_API_KEY") then ["GROQ_API_KEY"] else [])
          ++ (if truthy (environ w !! "OPENAI_API_KEY") then ["OPENAI_API_KEY"] else [])
     /\ forall slot,
          In slot (available_providers keys) <-> truthy (dict_get slot keys) = true)
  /\
  ((forall k, In k credential_vars -> truthy (environ w !! k) = false) ->
   fst (_validate_env w) = Raise (DocumentPortalException no_keys_message)
   /\ Forall
        (fun name =>
           contains name no_keys_message = true
           /\ forall w' : World, truthy (environ w' !! name) = true ->
                is_Raise (fst (_validate_env w')) = false)
        ["GOOGLE_API_KEY"; "GROQ_API_KEY"; "OPENAI_API_KEY"]).
Proof.
  split.
  - intros H. apply has_credential_true in H.
    exists (keys_of (environ w)). rewrite validate_env_run, H.
    split; [reflexivity|]. split; [by apply available_providers_keys_of|].
    destruct (dict_get_keys_of (environ w)) as (-> & -> & ->).
    split; [by rewrite truthy_py_or|]. split; [reflexivity|]. split; [reflexivity|].
    split; [reflexivity|]. split.
    + unfold available_providers, keys_of. cbn [List.filter map fst snd].
      rewrite truthy_py_or.
      by destruct (truthy (environ w !! "GOOGLE_API_KEY") || truthy (environ w !! "GEMINI_API_KEY")),
        (truthy (environ w !! "GROQ_API_KEY")), (truthy (environ w !! "OPENAI_API_KEY")).
    + apply available_providers_truthy. cbn [keys_of map fst].
      repeat constructor; cbn [In]; intros Hin;
        repeat (destruct Hin as [Hin|Hin]; [discriminate|]); exact Hin.
  - intros H. apply has_credential_false in H.
    rewrite validate_env_run, H. split; [reflexivity|].
    repeat constructor; try reflexivity;
      intros w' Hw'; rewrite validate_env_run;
      (replace (has_credential (environ w')) with true; [reflexivity|]);
      symmetry; apply has_credential_true; eexists; (split; [|exact Hw']);
      cbn [In credential_vars]; tauto.
Qed.

Lemma ModelLoader_init_ok (w w' : World) (self : ModelLoader) :
  ModelLoader_init ext w = (Ok self, w') ->
  has_credential (load_dotenv ext (environ w)) = true
  /\ api_keys self = keys_of (load_dotenv ext (environ w))
  /\ load_config ext = Ok (config self).
Proof.
  unfold ModelLoader_init, bind. rewrite validate_env_run. cbn [environ dotenv_world].
  destruct (has_credential (load_dotenv ext (environ w))); [|discriminate].
  cbn [say]. destruct (load_config ext) as [c|e]; [|discriminate].
  unfold log_info, emit, ret. intros [= <- _]. auto.
Qed.

Lemma try_entry_run (cfg : LLMConfig) (w : World) :
  try_entry ext cfg w =
  (match outcome_of ext cfg with
   | Constructed client => Ok (Some client)
   | Failed msg => Raise (LibraryError msg)
   | NoClient => Ok None
   end, say (entry_events ext cfg) w).
Proof.
  unfold try_entry, entry_events, outcome_of, bind, log_info, emit, construct.
  fold (entry_temperature cfg) (entry_max_tokens cfg).
  destruct (dispatch (provider cfg)) as [cls|]; [|reflexivity].
  fold (budget cls cfg).
  destruct (chat_fault ext cls (model_name cfg) (entry_temperature cfg) (budget cls cfg));
    unfold raise, ret; cbn [llm_class]; [reflexivity|].
  by rewrite say_app.
Qed.

Lemma load_llm_loop_run (b : gmap string LLMConfig) (keys : list string) :
  forall (last : option Exception) (w : World),
  load_llm_loop ext b keys last w =
  (match first_client ext b keys with
   | Some client => Ok client
   | None => Raise (DocumentPortalException (exhausted_message (last_failure ext b keys last)))
   end, say (loop_events ext b keys last) w).
Proof.
  induction keys as [|k rest IH]; intros last w.
  - reflexivity.
  - cbn [load_llm_loop first_client last_failure loop_events].
    destruct (b !! k) as [cfg|]; [|apply IH].
    rewrite try_entry_run. destruct (outcome_of ext cfg) as [client|msg|].
    + by rewrite app_nil_r.
    + cbn [is_Exception]. unfold bind, log_warning, emit. rewrite IH, !say_app.
      cbn [py_str]. rewrite <- ?app_assoc. reflexivity.
    + by rewrite IH, say_app.
Qed.

Lemma load_llm_run (self : ModelLoader) (b : gmap string LLMConfig) (w : World) :
  llm (config self) = Some b ->
  load_llm ext self w =
  match provider_priority (api_keys self) with
  | [] => (Raise (ValueError "No LLM API keys configured"),
           say [Log ERROR "No LLM API keys available" []] w)
  | keys =>
      (match first_client ext b keys with
       | Some client => Ok client
       | None => Raise (DocumentPortalException (exhausted_message (last_failure ext b keys None)))
       end, say (loop_events ext b keys None) w)
  end.
Proof.
  intros Hb. unfold load_llm. rewrite Hb.
  destruct (provider_priority (api_keys self)) as [|k rest]; [reflexivity|].
  apply load_llm_loop_run.
Qed.


(** *** Traversal restricted to the candidates *)

Lemma candidates_filter (keys : ApiKeys) (b : gmap string LLMConfig) :
  candidates keys b = List.filter (has_entry b) (provider_priority keys).
Proof.
  unfold candidates, provider_priority, priority_order. cbn [List.filter].
  change (credential_slot "openai") with "OPENAI_API_KEY".
  change (credential_slot "google") with "GOOGLE_API_KEY".
  change (credential_slot "groq") with "GROQ_API_KEY".
  destruct (truthy (dict_get "OPENAI_API_KEY" keys)),
    (truthy (dict_get "GOOGLE_API_KEY" keys)),
    (truthy (dict_get "GROQ_API_KEY" keys));
    cbn [andb app List.filter]; reflexivity.
Qed.

Lemma candidates_have_entry (keys : ApiKeys) (b : gmap string LLMConfig) (k : string) :
  In k (candidates keys b) -> exists cfg, b !! k = Some cfg.
Proof.
  unfold candidates. rewrite filter_In, andb_true_iff. unfold has_entry.
  intros (_ & _ & H). destruct (b !! k); [eauto | discriminate].
Qed.

Lemma candidates_NoDup (keys : ApiKeys) (b : gmap string LLMConfig) :
  List.NoDup (candidates keys b).
Proof.
  unfold candidates. apply List.NoDup_filter. unfold priority_order.
  repeat constructor; cbn [In]; intros H;
    repeat (destruct H as [H|H]; [discriminate H|]); exact H.
Qed.

Lemma first_client_filter (b : gmap string LLMConfig) (l : list string) :
  first_client ext b (List.filter (has_entry b) l) = first_client ext b l.
Proof.
  induction l as [|k l IH]; [reflexivity|].
  cbn [List.filter first_client]. unfold has_entry at 1.
  destruct (b !! k) as [cfg|] eqn:Hk; [|exact IH].
  cbn [first_client]. rewrite Hk, IH. reflexivity.
Qed.

Lemma last_failure_filter (b : gmap string LLMConfig) (l : list string) :
  forall last, last_failure ext b (List.filter (has_entry b) l) last = last_failure ext b l last.
Proof.
  induction l as [|k l IH]; intros last; [reflexivity|].
  cbn [List.filter last_failure]. unfold has_entry at 1.
  destruct (b !! k) as [cfg|] eqn:Hk; [|apply IH].
  cbn [last_failure]. rewrite Hk. destruct (outcome_of ext cfg); apply IH.
Qed.

Lemma loop_events_filter (b : gmap string LLMConfig) (l : list string) :
  forall last, loop_events ext b (List.filter (has_entry b) l) last = loop_events ext b l last.
Proof.
  induction l as [|k l IH]; intros last; [reflexivity|].
  cbn [List.filter loop_events]. unfold has_entry at 1.
  destruct (b !! k) as [cfg|] eqn:Hk; [|apply IH].
  cbn [loop_events]. rewrite Hk. destruct (outcome_of ext cfg); by rewrite ?IH.
Qed.

(** [load_llm] in terms of the candidates. *)
Lemma load_llm_candidates (self : ModelLoader) (b : gmap string LLMConfig) (w : World) :
  llm (config self) = Some b ->
  load_llm ext self w =
  match provider_priority (api_keys self) with
  | [] => (Raise (ValueError "No LLM API keys configured"),
           say [Log ERROR "No LLM API keys available" []] w)
  | _ :: _ =>
      (match first_client ext b (candidates (api_keys self) b) with
       | Some client => Ok client
       | None =>
           Raise (DocumentPortalException
                    (exhausted_message
                       (last_failure ext b (candidates (api_keys self) b) None)))
       end, say (loop_events ext b (candidates (api_keys self) b) None) w)
  end.
Proof.
  intros Hb. rewrite (load_llm_run self b w Hb), candidates_filter.
  rewrite first_client_filter, last_failure_filter, loop_events_filter.
  destruct (provider_priority (api_keys self)); reflexivity.
Qed.

Lemma candidates_nil (keys : ApiKeys) (b : gmap string LLMConfig) :
  provider_priority keys = [] -> candidates keys b = [].
Proof. intros H. rewrite candidates_filter, H. reflexivity. Qed.

Lemma first_client_app (b : gmap string LLMConfig) (pre l : list string) :
  first_client ext b pre = None ->
  first_client ext b (pre ++ l) = first_client ext b l.
Proof.
  induction pre as [|k pre IH]; [reflexivity|].
  cbn [first_client app]. destruct (b !! k) as [cfg|]; [|exact IH].
  destruct (outcome_of ext cfg); [discriminate | exact IH | exact IH].
Qed.

Lemma attempted_app (b : gmap string LLMConfig) (pre l : list string) :
  first_client ext b pre = None ->
  attempted ext b (pre ++ l) = attempted ext b pre ++ attempted ext b l.
Proof.
  induction pre as [|k pre IH]; [reflexivity|].
  cbn [first_client attempted app]. destruct (b !! k) as [cfg|]; [|exact IH].
  destruct (outcome_of ext cfg); [discriminate | |]; intros H; cbn [app]; by rewrite IH.
Qed.

Lemma attempted_prefix (b : gmap string LLMConfig) (l : list string) :
  (forall k, In k l -> exists cfg, b !! k = Some cfg) ->
  map fst (attempted ext b l) `prefix_of` l.
Proof.
  induction l as [|k l IH]; intros Hl; [by exists []|].
  cbn [attempted]. destruct (Hl k (or_introl eq_refl)) as [cfg ->].
  cbn [map fst]. apply prefix_cons.
  destruct (outcome_of ext cfg); [apply prefix_nil | |];
    apply IH; intros k' Hk'; apply Hl; by right.
Qed.

Lemma attempted_lookup (b : gmap string LLMConfig) (l : list string) (k : string)
    (cfg : LLMConfig) :
  In (k, cfg) (attempted ext b l) -> In k l /\ b !! k = Some cfg.
Proof.
  induction l as [|k' l IH]; [intros []|].
  cbn [attempted]. destruct (b !! k') as [cfg'|] eqn:Hk'.
  - intros [[= <- <-]|H]; [by split; [left|]|].
    destruct (outcome_of ext cfg'); [destruct H | |];
      destruct (IH H); split; auto; by right.
  - intros H. destruct (IH H). split; auto. by right.
Qed.

Lemma loading_events_attempted (b : gmap string LLMConfig) (l : list string) :
  forall last,
  List.filter is_loading (loop_events ext b l last)
  = map (fun kc => loading_event (snd kc)) (attempted ext b l).
Proof.
  induction l as [|k l IH]; intros last; [reflexivity|].
  cbn [loop_events attempted]. destruct (b !! k) as [cfg|]; [|apply IH].
  unfold entry_events. rewrite List.filter_app.
  destruct (outcome_of ext cfg); cbn [List.filter map snd app is_loading loading_event];
    change ("Loading LLM" =? "Loading LLM")%string with true; cbn iota.
  - reflexivity.
  - f_equal. cbn [warning_event is_loading]. apply IH.
  - f_equal. apply IH.
Qed.

Lemma warning_logged (b : gmap string LLMConfig) (pre rest : list string) (k : string)
    (cfg : LLMConfig) (msg : string) :
  first_client ext b pre = None -> b !! k = Some cfg -> outcome_of ext cfg = Failed msg ->
  forall last, In (warning_event k msg) (loop_events ext b (pre ++ k :: rest) last).
Proof.
  intros Hpre Hk Ho. induction pre as [|a pre IH]; intros last.
  - cbn [app loop_events]. rewrite Hk, Ho. apply in_or_app. right. by left.
  - cbn [app loop_events]. cbn [first_client] in Hpre.
    destruct (b !! a) as [cfga|]; [|by apply IH].
    apply in_or_app. right.
    destruct (outcome_of ext cfga); [discriminate | right | ]; by apply IH.
Qed.

Lemma loop_events_no_keys_log (b : gmap string LLMConfig) (l : list string) :
  forall last, ~ In (Log ERROR "No LLM API keys available" []) (loop_events ext b l last).
Proof.
  induction l as [|k l IH]; intros last.
  - cbn. intros [H|[]]. discriminate H.
  - cbn [loop_events]. destruct (b !! k) as [cfg|]; [|apply IH].
    rewrite in_app_iff. unfold entry_events, loading_event, loaded_event, warning_event.
    intros [[H|H]|H]; [discriminate H | |].
    + destruct (outcome_of ext cfg); [destruct H as [H|[]]; discriminate H | destruct H ..].
    + destruct (outcome_of ext cfg); [destruct H | | by eapply IH].
      destruct H as [H|H]; [discriminate H | by eapply IH].
Qed.

Lemma outcome_of_constructed (cfg : LLMConfig) (cls : ClientClass) :
  dispatch (provider cfg) = Some cls ->
  chat_fault ext cls (model_name cfg) (entry_temperature cfg) (budget cls cfg) = None ->
  outcome_of ext cfg =
  Constructed {| llm_class := cls; llm_model := model_name cfg;
                 llm_temperature := entry_temperature cfg;
                 llm_max_tokens := budget cls cfg |}.
Proof. intros Hd Hc. unfold outcome_of. by rewrite Hd, Hc. Qed.

(** The three provider keys, with their slot and their membership of the
    candidate list. *)
Lemma candidates_openai (keys : ApiKeys) (b : gmap string LLMConfig) (cfg : LLMConfig) :
  truthy (dict_get "OPENAI_API_KEY" keys) = true -> b !! "openai" = Some cfg ->
  exists rest, candidates keys b = "openai" :: rest.
Proof.
  intros Hk Hb. unfold candidates, priority_order. cbn [List.filter].
  change (credential_slot "openai") with "OPENAI_API_KEY".
  unfold has_entry at 1. rewrite Hk, Hb. cbn [andb]. eauto.
Qed.

Lemma candidates_openai_google (keys : ApiKeys) (b : gmap string LLMConfig)
    (c1 c2 : LLMConfig) :
  truthy (dict_get "OPENAI_API_KEY" keys) = true -> b !! "openai" = Some c1 ->
  truthy (dict_get "GOOGLE_API_KEY" keys) = true -> b !! "google" = Some c2 ->
  exists rest, candidates keys b = "openai" :: "google" :: rest.
Proof.
  intros Hk1 Hb1 Hk2 Hb2. unfold candidates, priority_order. cbn [List.filter].
  change (credential_slot "openai") with "OPENAI_API_KEY".
  change (credential_slot "google") with "GOOGLE_API_KEY".
  unfold has_entry at 1 2. rewrite Hk1, Hb1, Hk2, Hb2. cbn [andb]. eauto.
Qed.

Lemma provider_priority_openai (keys : ApiKeys) :
  truthy (dict_get "OPENAI_API_KEY" keys) = true -> provider_priority keys <> [].
Proof. intros H. unfold provider_priority. rewrite H. discriminate. Qed.


(** C1 (amended): [load_llm] walks the provider keys in the fixed order
    openai, google, groq, restricted to those with a credential and a
    configuration entry, and returns the first client constructed; the
    entries taken up form a duplicate-free initial segment of that list,
    each announced once in the log.  The class constructed is the one the
    entry's [provider] field names: when the OpenAI credential is present,
    the entry under [openai] names provider [openai] and its constructor
    does not raise, the client returned is that [ChatOpenAI] client. *)
Theorem load_llm_priority (self : ModelLoader) (b : gmap string LLMConfig) (w : World) :
  llm (config self) = Some b ->
  let cands := candidates (api_keys self) b in
  cands = List.filter (has_entry b) (provider_priority (api_keys self))
  /\ (forall client,
        fst (load_llm ext self w) = Ok client <-> first_client ext b cands = Some client)
  /\ (exists evs,
        snd (load_llm ext self w) = say evs w
        /\ List.filter is_loading evs
           = map (fun kc => loading_event (snd kc)) (attempted ext b cands))
  /\ map fst (attempted ext b cands) `prefix_of` cands
  /\ List.NoDup (map fst (attempted ext b cands))
  /\ (forall cfg,
        truthy (dict_get "OPENAI_API_KEY" (api_keys self)) = true ->
        b !! "openai" = Some cfg ->
        provider cfg = Some "openai" ->
        chat_fault ext ChatOpenAI (model_name cfg) (entry_temperature cfg)
          (Some (entry_max_tokens cfg)) = None ->
        fst (load_llm ext self w)
        = Ok {| llm_class := ChatOpenAI; llm_model := model_name cfg;
                llm_temperature := entry_temperature cfg;
                llm_max_tokens := Some (entry_max_tokens cfg) |}).
Proof.
  intros Hb cands. rewrite (load_llm_candidates self b w Hb). fold cands.
  assert (Hpre : map fst (attempted ext b cands) `prefix_of` cands)
    by (apply attempted_prefix; intros k; apply candidates_have_entry).
  split; [apply candidates_filter|].
  repeat split.
  - destruct (provider_priority (api_keys self)) eqn:Hp; cbn [fst].
    + discriminate.
    + destruct (first_client ext b cands); [congruence | discriminate].
  - destruct (provider_priority (api_keys self)) eqn:Hp; cbn [fst].
    + subst cands. rewrite (candidates_nil _ b Hp). discriminate.
    + intros ->. reflexivity.
  - destruct (provider_priority (api_keys self)) eqn:Hp; cbn [snd].
    + eexists; split; [reflexivity|]. subst cands. by rewrite (candidates_nil _ b Hp).
    + eexists; split; [reflexivity|]. apply loading_events_attempted.
  - exact Hpre.
  - destruct Hpre as [suf Hsuf]. pose proof (candidates_NoDup (api_keys self) b) as Hnd.
    fold cands in Hnd. rewrite Hsuf in Hnd. by apply List.NoDup_app_remove_r in Hnd.
  - intros cfg Hk Hcfg Hp Hc.
    destruct (candidates_openai _ b cfg Hk Hcfg) as [rest Hrest].
    fold cands in Hrest. rewrite Hrest.
    destruct (provider_priority (api_keys self)) eqn:Hpp;
      [by apply provider_priority_openai in Hk|].
    cbn [fst first_client]. rewrite Hcfg.
    rewrite (outcome_of_constructed cfg ChatOpenAI); [reflexivity | by rewrite Hp | exact Hc].
Qed.

(** C2 (amended): an exception raised by a constructor never leaves
    [load_llm]; it is logged as a warning under the provider key, the
    candidates after it are taken up in order, and the result is decided
    by them.  When the OpenAI construction fails while the Google
    credential is present, the entry under [google] names provider
    [google] and its constructor does not raise, the client returned is
    that [ChatGoogleGenerativeAI] client. *)
Theorem load_llm_fallback (self : ModelLoader) (b : gmap string LLMConfig) (w : World) :
  llm (config self) = Some b ->
  let cands := candidates (api_keys self) b in
  (forall msg, fst (load_llm ext self w) <> Raise (LibraryError msg))
  /\ (forall pre k rest cfg msg,
        cands = pre ++ k :: rest ->
        first_client ext b pre = None ->
        b !! k = Some cfg ->
        outcome_of ext cfg = Failed msg ->
        (exists evs, snd (load_llm ext self w) = say evs w /\ In (warning_event k msg) evs)
        /\ attempted ext b cands
           = attempted ext b pre ++ (k, cfg) :: attempted ext b rest
        /\ (forall k' rest', rest = k' :: rest' ->
              exists cfg', b !! k' = Some cfg' /\ In (k', cfg') (attempted ext b cands))
        /\ (forall client,
              fst (load_llm ext self w) = Ok client <-> first_client ext b rest = Some client))
  /\ (forall c1 c2 msg,
        truthy (dict_get "OPENAI_API_KEY" (api_keys self)) = true ->
        b !! "openai" = Some c1 ->
        outcome_of ext c1 = Failed msg ->
        truthy (dict_get "GOOGLE_API_KEY" (api_keys self)) = true ->
        b !! "google" = Some c2 ->
        provider c2 = Some "google" ->
        chat_fault ext ChatGoogleGenerativeAI (model_name c2) (entry_temperature c2)
          (Some (entry_max_tokens c2)) = None ->
        fst (load_llm ext self w)
        = Ok {| llm_class := ChatGoogleGenerativeAI; llm_model := model_name c2;
                llm_temperature := entry_temperature c2;
                llm_max_tokens := Some (entry_max_tokens c2) |}).
Proof.
  intros Hb cands. rewrite (load_llm_candidates self b w Hb). fold cands.
  split; [|split].
  - intros msg. destruct (provider_priority (api_keys self)); cbn [fst]; [discriminate|].
    destruct (first_client ext b cands); discriminate.
  - intros pre k rest cfg msg Hc Hpre Hk Ho.
    assert (Hne : provider_priority (api_keys self) <> []).
    { intros Hp. subst cands. rewrite (candidates_nil _ b Hp) in Hc. by destruct pre. }
    destruct (provider_priority (api_keys self)) as [|p ps]; [done|]. cbn [fst snd].
    assert (Hatt : attempted ext b cands
                   = attempted ext b pre ++ (k, cfg) :: attempted ext b rest).
    { rewrite Hc, (attempted_app b pre _ Hpre). cbn [attempted]. by rewrite Hk, Ho. }
    repeat split.
    + eexists; split; [reflexivity|]. rewrite Hc. by eapply warning_logged.
    + exact Hatt.
    + intros k' rest' ->.
      destruct (candidates_have_entry (api_keys self) b k') as [cfg' Hk'].
      { fold cands. rewrite Hc. apply in_or_app. right. right. by left. }
      exists cfg'. split; [exact Hk'|]. rewrite Hatt. apply in_or_app. right. right.
      cbn [attempted]. rewrite Hk'. by left.
    + rewrite Hc, (first_client_app b pre _ Hpre). cbn [first_client]. rewrite Hk, Ho.
      destruct (first_client ext b rest); [congruence | discriminate].
    + rewrite Hc, (first_client_app b pre _ Hpre). cbn [first_client]. rewrite Hk, Ho.
      intros ->. reflexivity.
  - intros c1 c2 msg Hk1 Hb1 Ho1 Hk2 Hb2 Hp2 Hc2.
    destruct (candidates_openai_google _ b c1 c2 Hk1 Hb1 Hk2 Hb2) as [rest Hrest].
    fold cands in Hrest. rewrite Hrest.
    destruct (provider_priority (api_keys self)) eqn:Hpp;
      [by apply provider_priority_openai in Hk1|].
    cbn [fst first_client]. rewrite Hb1, Ho1, Hb2.
    rewrite (outcome_of_constructed c2 ChatGoogleGenerativeAI);
      [reflexivity | by rewrite Hp2 | exact Hc2].
Qed.



(** C5: without a Google credential in [self.api_keys], [load_embeddings]
    raises the repository's exception whatever the other slots hold; with
    it, and a model name in the configuration, it returns the embedding
    client built with that model name, unless the constructor raises, in
    which case the exception raised carries the constructor's message. *)
Theorem load_embeddings_google_only (self : ModelLoader) (w : World) :
  (truthy (dict_get "GOOGLE_API_KEY" (api_keys self)) = false ->
   exists msg,
     fst (load_embeddings ext self w)
     = Raise (DocumentPortalException ("Failed to load embedding model: " +:+ msg))
     /\ (forall ec model,
           embedding_model (config self) = Some ec -> emb_model_name ec = Some model ->
           msg = "GOOGLE_API_KEY not found. Embeddings require Google Gemini API."))
  /\
  (truthy (dict_get "GOOGLE_API_KEY" (api_keys self)) = true ->
   forall ec model,
     embedding_model (config self) = Some ec -> emb_model_name ec = Some model ->
     match embeddings_fault ext model with
     | None => fst (load_embeddings ext self w) = Ok {| emb_model := model |}
     | Some msg =>
         fst (load_embeddings ext self w)
         = Raise (DocumentPortalException ("Failed to load embedding model: " +:+ msg))
     end).
Proof.
  unfold load_embeddings, try_except, bind, log_info, log_error, emit,
    embedding_model_name, GoogleGenerativeAIEmbeddings, raise, ret.
  split.
  - intros ->. cbn [negb].
    destruct (embedding_model (config self)) as [ec|].
    + destruct (emb_model_name ec) as [model|] eqn:Hm; cbn [is_Exception fst py_str].
      * eexists; split; [reflexivity|]. reflexivity.
      * eexists; split; [reflexivity|]. intros ec' model [= <-] Hm'. congruence.
    + cbn [is_Exception fst py_str]. eexists; split; [reflexivity|]. discriminate.
  - intros -> ec model -> ->. cbn [negb].
    destruct (embeddings_fault ext model); reflexivity.
Qed.

(** C10: a [ModelLoader] that [__init__] has returned holds a non-empty
    credential in [api_keys], so the list [provider_priority] of
    [load_llm] is not empty, and [load_llm] neither raises the
    [ValueError] of its empty-list branch nor writes that branch's log
    record. *)
Theorem constructed_loader_has_provider (w w' : World) (self : ModelLoader) :
  ModelLoader_init ext w = (Ok self, w') ->
  (exists slot, truthy (dict_get slot (api_keys self)) = true)
  /\ provider_priority (api_keys self) <> []
  /\ forall w1 : World,
       (forall msg, fst (load_llm ext self w1) <> Raise (ValueError msg))
       /\ exists evs,
            snd (load_llm ext self w1) = say evs w1
            /\ ~ In (Log ERROR "No LLM API keys available" []) evs.
Proof.
  intros Hinit. destruct (ModelLoader_init_ok w w' self Hinit) as (Hc & Hk & _).
  assert (Hpp : provider_priority (api_keys self) <> [])
    by (rewrite Hk; by apply provider_priority_keys_of).
  split; [|split; [exact Hpp|]].
  - rewrite Hk. destruct (dict_get_keys_of (load_dotenv ext (environ w))) as (Hg & Hq & Ho).
    unfold has_credential in Hc. rewrite <- truthy_py_or, <- Hg, <- Hq, <- Ho in Hc.
    rewrite !orb_true_iff in Hc. destruct Hc as [[H|H]|H]; eauto.
  - intros w1. destruct (llm (config self)) as [b|] eqn:Hb.
    + rewrite (load_llm_run self b w1 Hb).
      destruct (provider_priority (api_keys self)) as [|k ks]; [done|]. cbn [fst snd].
      split.
      * intros msg. destruct (first_client ext b (k :: ks)); discriminate.
      * eexists; split; [reflexivity|]. apply loop_events_no_keys_log.
    + unfold load_llm. rewrite Hb. unfold raise. cbn [fst snd]. split; [discriminate|].
      exists []. split; [by rewrite say_nil | intros []].
Qed.

End ModelLoaderProperties.

(** * Properties of the ingestion routine *)

Example is_pdf_lowercase : is_pdf "calm.pdf" = true.
Proof. reflexivity. Qed.

Example is_pdf_other_extension : is_pdf "notes.txt" = false.
Proof. reflexivity. Qed.

Example is_pdf_case_sensitive : is_pdf "SCAN.PDF" = false.
Proof. reflexivity. Qed.

Example is_pdf_short_name : is_pdf "pdf" = false.
Proof. reflexivity. Qed.

Section IngestionProperties.

Variable ext : Externals.

Ltac run :=
  unfold sys_exit, bind, ret, raise, try_except, log_info, log_warning, log_error,
    print, emit, getenv;
  cbn [fst snd is_Exception].

Ltac in_events :=
  rewrite ?in_app_iff; cbn [In]; unfold load_failure_event; intuition (eauto 12).

Lemma environ_say (evs : list Event) (w : World) : environ (say evs w) = environ w.
Proof. reflexivity. Qed.

Lemma listing_say (evs : list Event) (w : World) : listing (say evs w) = listing w.
Proof. reflexivity. Qed.

Lemma faiss_files_say (evs : list Event) (w : World) :
  faiss_files (say evs w) = faiss_files w.
Proof. reflexivity. Qed.

Lemma check_credentials_run (w : World) :
  exists evs,
    check_credentials w
    = (if has_google (environ w) then Ok tt else Raise (SystemExit 1), say evs w)
    /\ (has_google (environ w) = false ->
        existsb is_diagnostic evs = true /\ existsb is_print evs = true).
Proof.
  unfold check_credentials, has_google. run.
  destruct (truthy (environ w !! "GOOGLE_API_KEY")),
    (truthy (environ w !! "GEMINI_API_KEY")); cbn [negb andb orb];
    try (exists []; rewrite say_nil; split; [reflexivity | discriminate]).
  unfold raise. eexists; split; [rewrite !say_app; reflexivity|]. intros _. split; reflexivity.
Qed.

Lemma print_names_run (names : list string) (w : World) :
  exists evs, print_names names w = (Ok tt, say evs w).
Proof.
  revert w. induction names as [|n names IH]; intros w.
  - exists []. by rewrite say_nil.
  - cbn [print_names]. run. destruct (IH (say [Print ("  - " +:+ n)] w)) as [evs ->].
    rewrite say_app. eauto.
Qed.

Lemma discover_run (docs_dir : string) (w : World) :
  exists evs,
    discover docs_dir w
    = (match listing w !! docs_dir, pdf_files_in w docs_dir with
       | Some _, _ :: _ => Ok (pdf_files_in w docs_dir)
       | _, _ => Raise (SystemExit 1)
       end, say evs w)
    /\ ((listing w !! docs_dir = None \/ pdf_files_in w docs_dir = []) ->
        existsb is_diagnostic evs = true /\ existsb is_print evs = true).
Proof.
  unfold discover, path_exists, glob_pdf, pdf_files_in. run.
  destruct (listing w !! docs_dir) as [entries|] eqn:Hl; cbn [negb]; rewrite ?Hl.
  - cbn [default from_option id].
    destruct (List.filter is_pdf entries) as [|f fs] eqn:Hf.
    + eexists; split; [rewrite !say_app; reflexivity|]. intros _. split; reflexivity.
    + destruct (print_names_run (f :: fs)
                  (say [Print (LF +:+ "📚 Found " +:+ pretty (length (f :: fs))
                               +:+ " PDF files to ingest:" +:+ LF)]
                     (say [Log INFO "Found PDF files for ingestion"
                             [("count", FInt (Z.of_nat (length (f :: fs))));
                              ("files", FStrs (f :: fs))]] w))) as [evs Hevs].
      rewrite Hevs, !say_app. eexists; split; [reflexivity|].
      intros [H|H]; discriminate H.
  - eexists; split; [rewrite !say_app; reflexivity|]. intros _. split; reflexivity.
Qed.


Lemma has_google_credential (env : gmap string string) :
  has_google env = true -> has_credential env = true.
Proof. unfold has_google, has_credential. intros ->. reflexivity. Qed.

Lemma load_model_ok (w : World) (model : string) :
  embeddings_ready ext (environ w) model ->
  exists evs, load_model ext w = (Ok {| emb_model := model |}, say evs (dotenv_world ext w)).
Proof.
  intros (Hg & c & ec & Hc & Hec & Hm & Hf).
  unfold load_model, ModelLoader_init, load_embeddings, embedding_model_name,
    GoogleGenerativeAIEmbeddings. run.
  rewrite validate_env_run. cbn [environ dotenv_world say].
  rewrite (has_google_credential _ Hg), Hc. cbn [fst snd api_keys config].
  rewrite Hec, Hm.
  destruct (dict_get_keys_of (load_dotenv ext (environ w))) as (-> & _ & _).
  rewrite truthy_py_or. fold (has_google (load_dotenv ext (environ w))).
  rewrite Hg. cbn [negb]. rewrite Hf. cbn [fst snd].
  eexists. unfold say, dotenv_world. cbn [environ listing faiss_files console].
  rewrite <- !app_assoc. reflexivity.
Qed.

Lemma pages_of_ok (docs_dir name : string) (docs : list Document) :
  pdf_load ext (path_join ext docs_dir name) = inr docs ->
  pages_of ext docs_dir name = map (tag name (path_join ext docs_dir name)) docs.
Proof. unfold pages_of. by intros ->. Qed.

Lemma pages_of_fail (docs_dir name msg : string) :
  pdf_load ext (path_join ext docs_dir name) = inl msg -> pages_of ext docs_dir name = [].
Proof. unfold pages_of. by intros ->. Qed.

Lemma load_loop_run (docs_dir : string) (pdf_files : list string) :
  forall (acc : list Document) (w : World),
  exists evs,
    load_loop ext docs_dir pdf_files acc w
    = (Ok (acc ++ loaded ext docs_dir pdf_files), say evs w)
    /\ forall name msg,
         In name pdf_files -> pdf_load ext (path_join ext docs_dir name) = inl msg ->
         In (load_failure_event name msg) evs.
Proof.
  induction pdf_files as [|name rest IH]; intros acc w.
  - exists []. unfold loaded. cbn. rewrite say_nil, app_nil_r. split; [reflexivity|]. intros ? ? [].
  - cbn [load_loop]. unfold load_pdf, PyPDFLoader_load. run.
    unfold loaded. cbn [map concat]. fold (loaded ext docs_dir rest).
    destruct (pdf_load ext (path_join ext docs_dir name)) as [msg|docs] eqn:Hload.
    + rewrite (pages_of_fail _ _ _ Hload). run. cbn [py_str].
      edestruct IH as (evs & -> & Hevs). rewrite !say_app.
      eexists; split; [reflexivity|].
      intros name' msg' [<-|Hin] Hl'.
      * rewrite Hload in Hl'. injection Hl' as <-.
        in_events.
      * specialize (Hevs name' msg' Hin Hl'). in_events.
    + rewrite (pages_of_ok _ _ _ Hload). run.
      edestruct IH as (evs & -> & Hevs). rewrite !say_app, <- app_assoc.
      eexists; split; [reflexivity|].
      intros name' msg' [<-|Hin] Hl'.
      * rewrite Hload in Hl'. discriminate Hl'.
      * specialize (Hevs name' msg' Hin Hl'). in_events.
Qed.

Lemma load_all_run (docs_dir : string) (pdf_files : list string) (w : World) :
  exists evs,
    load_all ext docs_dir pdf_files w
    = (match loaded ext docs_dir pdf_files with
       | [] => Raise (SystemExit 1)
       | docs => Ok docs
       end, say evs w)
    /\ (loaded ext docs_dir pdf_files = [] ->
        In (Log ERROR "No documents loaded successfully" []) evs)
    /\ forall name msg,
         In name pdf_files -> pdf_load ext (path_join ext docs_dir name) = inl msg ->
         In (load_failure_event name msg) evs.
Proof.
  unfold load_all. run.
  destruct (load_loop_run docs_dir pdf_files [] (say [Print "📖 Loading PDFs..."] w))
    as (evs & -> & Hevs).
  cbn [app]. destruct (loaded ext docs_dir pdf_files) as [|d ds]; rewrite !say_app.
  - eexists; split; [reflexivity|]. split.
    + intros _. in_events.
    + intros name msg Hin Hl. specialize (Hevs name msg Hin Hl). in_events.
  - eexists; split; [reflexivity|]. split; [discriminate|].
    intros name msg Hin Hl. specialize (Hevs name msg Hin Hl). in_events.
Qed.

Lemma split_all_run (chunk_size chunk_overlap : Z) (docs : list Document) (w : World) :
  exists evs,
    split_all ext chunk_size chunk_overlap docs w
    = (match split_documents ext chunk_size chunk_overlap docs with
       | inr chunks => Ok chunks
       | inl msg => Raise (LibraryError msg)
       end, say evs w)
    /\ forall chunks,
         split_documents ext chunk_size chunk_overlap docs = inr chunks ->
         In (split_event chunks) evs.
Proof.
  unfold split_all, splitter_split_documents. run.
  destruct (split_documents ext chunk_size chunk_overlap docs) as [msg|chunks]; run;
    rewrite ?say_app; (eexists; split; [reflexivity|]).
  - discriminate.
  - intros ? [= <-]. unfold split_event. in_events.
Qed.

Lemma persist_ok (dir : string) (embeddings : Embeddings) (chunks : list Document)
    (w : World) (made : gmap string (list string)) :
  mkdir_outcome ext dir (listing w) = (None, made) ->
  embed_fault ext chunks = None ->
  faiss_load_fault ext dir = None ->
  faiss_save_fault ext dir = None ->
  exists evs w',
    persist ext dir embeddings chunks w = (Ok tt, say evs w')
    /\ environ w' = environ w
    /\ listing w' = made
    /\ console w' = console w
    /\ faiss_files w' = <[dir := updated_index w dir chunks]> (faiss_files w)
    /\ In (index_event w dir) evs.
Proof.
  intros Hmk He Hl Hs.
  unfold persist, build_index, mkdir, index_file_exists, FAISS_load_local,
    add_documents, FAISS_from_documents, save_local, updated_index, index_event. run.
  destruct (faiss_files w !! dir) as [store|] eqn:Hf;
    repeat (progress (run; cbn [environ listing faiss_files console say];
                      rewrite ?Hmk, ?He, ?Hl, ?Hs, ?Hf));
    (eexists _, {| environ := environ w; listing := made;
                   faiss_files := <[dir := _]> (faiss_files w); console := console w |});
    (split; [unfold say; cbn [environ listing faiss_files console];
             rewrite <- ?app_assoc; reflexivity|]);
    cbn [environ listing faiss_files console]; repeat split; in_events.
Qed.


Lemma summary_run (docs_dir dir : string) (pdf_files : list string) (total_pages : nat)
    (chunks : list Document) (w : World) :
  exists evs, summary docs_dir dir pdf_files total_pages chunks w = (Ok tt, say evs w).
Proof. unfold summary. run. rewrite !say_app. eauto. Qed.

Lemma loaded_app (docs_dir : string) (l1 l2 : list string) :
  loaded ext docs_dir (l1 ++ l2) = loaded ext docs_dir l1 ++ loaded ext docs_dir l2.
Proof. unfold loaded. by rewrite map_app, concat_app. Qed.

Lemma loaded_all_fail (docs_dir : string) (pdf_files : list string) :
  (forall name, In name pdf_files -> exists msg, pdf_load ext (path_join ext docs_dir name) = inl msg) ->
  loaded ext docs_dir pdf_files = [].
Proof.
  induction pdf_files as [|name rest IH]; intros H; [reflexivity|].
  unfold loaded. cbn [map concat]. fold (loaded ext docs_dir rest).
  destruct (H name (or_introl eq_refl)) as [msg Hmsg].
  rewrite (pages_of_fail _ _ _ Hmsg), IH; [reflexivity|].
  intros n Hn. apply H. by right.
Qed.

(** Every record of [all_documents] carries the name and the path of the
    file it was read from. *)
Lemma loaded_tagged (docs_dir : string) (pdf_files : list string) (doc : Document) :
  In doc (loaded ext docs_dir pdf_files) ->
  exists name,
    In name pdf_files
    /\ metadata doc !! "source_file" = Some name
    /\ metadata doc !! "source_path" = Some (path_join ext docs_dir name).
Proof.
  unfold loaded. rewrite in_concat. intros (pages & Hpages & Hdoc).
  apply in_map_iff in Hpages as (name & <- & Hname). exists name. split; [exact Hname|].
  unfold pages_of in Hdoc. destruct (pdf_load ext (path_join ext docs_dir name)); [destruct Hdoc|].
  apply in_map_iff in Hdoc as (d & <- & _). unfold tag. cbn [metadata]. split.
  - rewrite lookup_insert_ne by discriminate. apply lookup_insert_eq.
  - apply lookup_insert_eq.
Qed.

(** The stages of [ingest_documents] up to the load loop. *)
Lemma ingest_reaches_load (docs_dir dir : string) (cs co : Z) (w : World) (model : string) :
  has_google (environ w) = true ->
  listing w !! docs_dir <> None ->
  pdf_files_in w docs_dir <> [] ->
  embeddings_ready ext (environ w) model ->
  exists evs,
    ingest_documents ext docs_dir dir cs co w
    = (all_documents <- load_all ext docs_dir (pdf_files_in w docs_dir) ;;
       chunks <- split_all ext cs co all_documents ;;
       persist ext dir {| emb_model := model |} chunks ;;
       summary docs_dir dir (pdf_files_in w docs_dir) (length all_documents) chunks)
        (say evs (dotenv_world ext w)).
Proof.
  intros Hg Hl Hp Hready. unfold ingest_documents.
  unfold bind at 1. destruct (check_credentials_run w) as (e1 & -> & _). rewrite Hg.
  unfold bind at 1. destruct (discover_run docs_dir (say e1 w)) as (e2 & -> & _).
  change (pdf_files_in (say e1 w) docs_dir) with (pdf_files_in w docs_dir).
  rewrite listing_say.
  destruct (listing w !! docs_dir); [|done].
  destruct (pdf_files_in w docs_dir) as [|f fs] eqn:Hpdf; [done|].
  unfold bind at 1.
  destruct (load_model_ok (say e2 (say e1 w)) model Hready) as (e3 & ->).
  exists ((e1 ++ e2) ++ e3). f_equal.
  unfold say, dotenv_world. cbn [environ listing faiss_files console].
  by rewrite <- !app_assoc.
Qed.

(** C7: when the source directory does not exist or holds no file
    matching [*.pdf], [ingest_documents] ends in [sys.exit] with a code
    other than zero, after an error or warning record and a line on the
    console; the file system, and with it the vector store directory and
    any index in it, is as it was. *)
Theorem ingest_requires_pdf_files (docs_dir dir : string) (cs co : Z) (w : World) :
  listing w !! docs_dir = None \/ pdf_files_in w docs_dir = [] ->
  exists code evs,
    ingest_documents ext docs_dir dir cs co w = (Raise (SystemExit code), say evs w)
    /\ code <> 0%Z
    /\ existsb is_diagnostic evs = true
    /\ existsb is_print evs = true
    /\ faiss_files (say evs w) = faiss_files w
    /\ listing (say evs w) = listing w.
Proof.
  intros H. exists 1%Z. unfold ingest_documents.
  unfold bind at 1. destruct (check_credentials_run w) as (e1 & -> & He1).
  destruct (has_google (environ w)).
  - unfold bind at 1. destruct (discover_run docs_dir (say e1 w)) as (e2 & -> & He2).
    change (pdf_files_in (say e1 w) docs_dir) with (pdf_files_in w docs_dir) in *.
    rewrite listing_say in *. destruct (He2 H) as [Hd Hp].
    exists (e1 ++ e2). rewrite say_app, !existsb_app, Hd, Hp, !orb_true_r.
    repeat split; try done.
    destruct H as [-> | ->]; [reflexivity|]. by destruct (listing w !! docs_dir).
  - destruct (He1 eq_refl) as [Hd Hp]. exists e1. repeat split; done.
Qed.

(** C8: the load loop never raises.  A file whose loading raises is
    reported in an error record and contributes nothing, and the loop goes
    on: [all_documents] is made of the tagged pages of the files before it
    and after it.  When every file fails, [ingest_documents] ends in
    [sys.exit(1)] once the loop is over, leaving any index as it was. *)
Theorem ingest_skips_unreadable_files (docs_dir : string) (pdf_files : list string)
    (w : World) :
  (exists evs,
     load_loop ext docs_dir pdf_files [] w = (Ok (loaded ext docs_dir pdf_files), say evs w)
     /\ forall name msg,
          In name pdf_files -> pdf_load ext (path_join ext docs_dir name) = inl msg ->
          In (load_failure_event name msg) evs)
  /\ (forall pre name post msg,
        pdf_files = pre ++ name :: post ->
        pdf_load ext (path_join ext docs_dir name) = inl msg ->
        loaded ext docs_dir pdf_files = loaded ext docs_dir pre ++ loaded ext docs_dir post)
  /\ (forall pre name post docs,
        pdf_files = pre ++ name :: post ->
        pdf_load ext (path_join ext docs_dir name) = inr docs ->
        loaded ext docs_dir pdf_files
        = loaded ext docs_dir pre ++ map (tag name (path_join ext docs_dir name)) docs
          ++ loaded ext docs_dir post)
  /\ (forall dir cs co model,
        has_google (environ w) = true ->
        listing w !! docs_dir <> None ->
        pdf_files_in w docs_dir = pdf_files ->
        pdf_files <> [] ->
        embeddings_ready ext (environ w) model ->
        (forall name, In name pdf_files ->
           exists msg, pdf_load ext (path_join ext docs_dir name) = inl msg) ->
        exists evs,
          ingest_documents ext docs_dir dir cs co w
          = (Raise (SystemExit 1), say evs (dotenv_world ext w))
          /\ In (Log ERROR "No documents loaded successfully" []) evs
          /\ faiss_files (say evs (dotenv_world ext w)) = faiss_files w).
Proof.
  split; [|split; [|split]].
  - destruct (load_loop_run docs_dir pdf_files [] w) as (evs & Hrun & Hevs). eauto.
  - intros pre name post msg -> Hmsg. rewrite loaded_app. f_equal.
    unfold loaded. cbn [map concat]. by rewrite (pages_of_fail _ _ _ Hmsg).
  - intros pre name post docs -> Hdocs. rewrite loaded_app. f_equal.
    unfold loaded. cbn [map concat]. by rewrite (pages_of_ok _ _ _ Hdocs).
  - intros dir cs co model Hg Hl Hp Hne Hready Hall. subst pdf_files.
    destruct (ingest_reaches_load docs_dir dir cs co w model Hg Hl Hne Hready) as (e0 & ->).
    unfold bind at 1.
    destruct (load_all_run docs_dir (pdf_files_in w docs_dir) (say e0 (dotenv_world ext w)))
      as (e1 & -> & Hlog & _).
    pose proof (loaded_all_fail docs_dir _ Hall) as Hnil. rewrite Hnil.
    exists (e0 ++ e1). rewrite say_app. repeat split.
    apply in_or_app. right. by apply Hlog.
Qed.

(** A run of [ingest_documents] that meets no failure. *)
Lemma ingest_run_ok (docs_dir dir : string) (cs co : Z) (w : World)
    (model : string) (chunks : list Document) (made : gmap string (list string)) :
  has_google (environ w) = true ->
  listing w !! docs_dir <> None ->
  embeddings_ready ext (environ w) model ->
  loaded ext docs_dir (pdf_files_in w docs_dir) <> [] ->
  split_documents ext cs co (loaded ext docs_dir (pdf_files_in w docs_dir)) = inr chunks ->
  mkdir_outcome ext dir (listing w) = (None, made) ->
  embed_fault ext chunks = None ->
  faiss_load_fault ext dir = None ->
  faiss_save_fault ext dir = None ->
  exists evs w',
    ingest_documents ext docs_dir dir cs co w = (Ok tt, say evs w')
    /\ console w' = console w
    /\ faiss_files w' = <[dir := updated_index w dir chunks]> (faiss_files w)
    /\ In (index_event w dir) evs
    /\ In (split_event chunks) evs.
Proof.
  intros Hg Hl Hready Hdocs Hsplit Hmk He Hlf Hsf.
  assert (Hne : pdf_files_in w docs_dir <> []).
  { intros Hnil. apply Hdocs. by rewrite Hnil. }
  destruct (ingest_reaches_load docs_dir dir cs co w model Hg Hl Hne Hready) as (e0 & ->).
  unfold bind at 1.
  destruct (load_all_run docs_dir (pdf_files_in w docs_dir) (say e0 (dotenv_world ext w)))
    as (e1 & -> & _).
  destruct (loaded ext docs_dir (pdf_files_in w docs_dir)) as [|d ds] eqn:Hloaded; [done|].
  unfold bind at 1.
  destruct (split_all_run cs co (d :: ds) (say e1 (say e0 (dotenv_world ext w))))
    as (e2 & -> & Hcount).
  specialize (Hcount chunks Hsplit). rewrite Hsplit. unfold bind at 1.
  destruct (persist_ok dir {| emb_model := model |} chunks
              (say e2 (say e1 (say e0 (dotenv_world ext w)))) made Hmk He Hlf Hsf)
    as (e3 & w3 & -> & _ & _ & Hcon & Hfaiss & Hlog).
  destruct (summary_run docs_dir dir (pdf_files_in w docs_dir) (length (d :: ds)) chunks
              (say e3 w3)) as (e4 & ->).
  exists (e0 ++ e1 ++ e2 ++ e3 ++ e4),
    {| environ := environ w3; listing := listing w3; faiss_files := faiss_files w3;
       console := console w |}.
  cbn [console faiss_files].
  split; [|split; [reflexivity|split; [exact Hfaiss|split]]].
  - f_equal. unfold say. cbn [environ listing faiss_files console]. rewrite Hcon.
    unfold say, dotenv_world. cbn [console]. by rewrite <- !app_assoc.
  - rewrite !in_app_iff. tauto.
  - rewrite !in_app_iff. tauto.
Qed.

(** C6: in a run that reaches the index step with [chunks], in which
    [mkdir] succeeds and the index step meets no failure, the index
    written at [dir] is made of [chunks] alone when no index file was
    there, and of the records of the existing index followed by [chunks]
    when one was; in both cases it replaces whatever was persisted at
    [dir]. *)
Theorem ingest_index_lifecycle (docs_dir dir : string) (cs co : Z) (w : World)
    (model : string) (chunks : list Document) (made : gmap string (list string)) :
  has_google (environ w) = true ->
  listing w !! docs_dir <> None ->
  embeddings_ready ext (environ w) model ->
  loaded ext docs_dir (pdf_files_in w docs_dir) <> [] ->
  split_documents ext cs co (loaded ext docs_dir (pdf_files_in w docs_dir)) = inr chunks ->
  mkdir_outcome ext dir (listing w) = (None, made) ->
  embed_fault ext chunks = None ->
  faiss_load_fault ext dir = None ->
  faiss_save_fault ext dir = None ->
  let r := ingest_documents ext docs_dir dir cs co w in
  fst r = Ok tt
  /\ faiss_files (snd r) !! dir = Some (updated_index w dir chunks)
  /\ (faiss_files w !! dir = None -> faiss_files (snd r) !! dir = Some chunks)
  /\ (forall store, faiss_files w !! dir = Some store ->
        faiss_files (snd r) !! dir = Some (store ++ chunks))
  /\ exists evs, console (snd r) = console w ++ evs /\ In (index_event w dir) evs.
Proof.
  intros Hg Hl Hready Hdocs Hsplit Hmk He Hlf Hsf r.
  destruct (ingest_run_ok docs_dir dir cs co w model chunks made Hg Hl Hready Hdocs Hsplit
              Hmk He Hlf Hsf) as (evs & w' & Hrun & Hcon & Hfaiss & Hlog & _).
  subst r. rewrite Hrun. cbn [fst snd]. rewrite !faiss_files_say, Hfaiss.
  split; [reflexivity|]. split; [apply lookup_insert_eq|].
  split; [intros Hnone; rewrite lookup_insert_eq; unfold updated_index; by rewrite Hnone|].
  split; [intros store Hsome; rewrite lookup_insert_eq; unfold updated_index; by rewrite Hsome|].
  exists evs. split; [|exact Hlog]. unfold say. cbn [console]. by rewrite Hcon.
Qed.

(** C9 (amended): every record the load loop produces carries the name of
    its file under [source_file] and the text of its path, as pathlib
    renders it, under [source_path] before splitting.  Ingesting one PDF
    of three pages with chunk size 800 and overlap 200, in a run in which
    [mkdir] succeeds and the index step meets no failure, hands its three
    tagged records to the splitter and produces the chunks the splitter
    returns for them, in the number it returns them; each chunk carries
    the file name under [source_file] when the splitter gives a chunk the
    metadata of a record it was given. *)
Theorem ingest_tags_every_record (docs_dir dir name : string) (p1 p2 p3 : Document)
    (w : World) (model : string) (chunks : list Document)
    (made : gmap string (list string)) :
  (forall pdf_files doc,
     In doc (loaded ext docs_dir pdf_files) ->
     exists file,
       In file pdf_files
       /\ metadata doc !! "source_file" = Some file
       /\ metadata doc !! "source_path" = Some (path_join ext docs_dir file))
  /\
  (has_google (environ w) = true ->
   pdf_files_in w docs_dir = [name] ->
   pdf_load ext (path_join ext docs_dir name) = inr [p1; p2; p3] ->
   embeddings_ready ext (environ w) model ->
   split_documents ext 800 200 (map (tag name (path_join ext docs_dir name)) [p1; p2; p3])
   = inr chunks ->
   mkdir_outcome ext dir (listing w) = (None, made) ->
   embed_fault ext chunks = None ->
   faiss_load_fault ext dir = None ->
   faiss_save_fault ext dir = None ->
   let r := ingest_documents ext docs_dir dir 800 200 w in
   fst r = Ok tt
   /\ faiss_files (snd r) !! dir = Some (updated_index w dir chunks)
   /\ (exists evs, console (snd r) = console w ++ evs /\ In (split_event chunks) evs)
   /\ ((forall c, In c chunks ->
          exists d, In d (map (tag name (path_join ext docs_dir name)) [p1; p2; p3])
                    /\ metadata c = metadata d) ->
       forall c, In c chunks -> metadata c !! "source_file" = Some name)).
Proof.
  split; [intros pdf_files doc; apply loaded_tagged|].
  intros Hg Hfiles Hload Hready Hsplit Hmk He Hlf Hsf r.
  assert (Hloaded : loaded ext docs_dir (pdf_files_in w docs_dir)
                    = map (tag name (path_join ext docs_dir name)) [p1; p2; p3]).
  { rewrite Hfiles. unfold loaded. cbn [map concat].
    rewrite (pages_of_ok _ _ _ Hload). apply app_nil_r. }
  assert (Hl : listing w !! docs_dir <> None).
  { intros Hnone. unfold pdf_files_in in Hfiles. rewrite Hnone in Hfiles. discriminate. }
  destruct (ingest_run_ok docs_dir dir 800 200 w model chunks made Hg Hl Hready)
    as (evs & w' & Hrun & Hcon & Hfaiss & _ & Hcount); try done.
  { rewrite Hloaded. discriminate. }
  { by rewrite Hloaded. }
  subst r. rewrite Hrun. cbn [fst snd]. rewrite !faiss_files_say, Hfaiss.
  split; [reflexivity|]. split; [apply lookup_insert_eq|]. split.
  - exists evs. split; [|exact Hcount]. unfold say. cbn [console]. by rewrite Hcon.
  - intros Hmeta c Hc. destruct (Hmeta c Hc) as (d & Hd & ->).
    apply in_map_iff in Hd as (p & <- & _). unfold tag. cbn [metadata].
    rewrite lookup_insert_ne by discriminate. apply lookup_insert_eq.
Qed.

End IngestionProperties.

(** * Further properties *)

Section StringFacts.

Lemma substring_append_skip (a t : string) (m k : nat) :
  substring (String.length a + m) k (a +:+ t) = substring m k t.
Proof. induction a as [|c a IH]; [reflexivity|]. simpl. exact IH. Qed.

Lemma substring_prefix (s b : string) : substring 0 (String.length s) (s +:+ b) = s.
Proof.
  induction s as [|c s IH].
  - by destruct b.
  - simpl. f_equal. exact IH.
Qed.

Lemma length_append (a b : string) :
  String.length (a +:+ b) = (String.length a + String.length b)%nat.
Proof. induction a as [|c a IH]; simpl; [reflexivity | f_equal; exact IH]. Qed.

Lemma substring_all (s : string) : substring 0 (String.length s) s = s.
Proof. induction s as [|c s IH]; simpl; [reflexivity | f_equal; exact IH]. Qed.

Lemma substring_split (s : string) (k : nat) :
  (k <= String.length s)%nat ->
  s = substring 0 k s +:+ substring k (String.length s - k) s.
Proof.
  revert k. induction s as [|c s IH]; intros k Hk.
  - cbn in Hk. assert (k = 0)%nat as -> by lia. reflexivity.
  - destruct k as [|k].
    + rewrite Nat.sub_0_r, substring_all. reflexivity.
    + simpl.
      change (String c s
              = String c (substring 0 k s +:+ substring k (String.length s - k) s)).
      f_equal. apply IH. simpl in Hk. lia.
Qed.

Lemma contains_occurrence (s t : string) (m : nat) :
  substring m (String.length s) t = s -> contains s t = true.
Proof.
  intros Hsub. unfold contains. destruct (String.index 0 s t) eqn:Hi; [reflexivity|].
  destruct s as [|c s].
  - apply index_correct4 in Hi. lia.
  - exfalso. apply (index_correct3 0 m _ _ Hi); [discriminate | lia | exact Hsub].
Qed.

Lemma contains_here (s b : string) : contains s (s +:+ b) = true.
Proof. apply (contains_occurrence s _ 0), substring_prefix. Qed.

Lemma contains_later (s a t : string) : contains s t = true -> contains s (a +:+ t) = true.
Proof.
  unfold contains at 1. destruct (String.index 0 s t) as [m|] eqn:Hi; [|discriminate].
  intros _. apply index_correct1 in Hi.
  apply (contains_occurrence s _ (String.length a + m)).
  by rewrite substring_append_skip.
Qed.

End StringFacts.

Section ExceptionProperties.

Lemma exception_text_parts (self : DocumentPortalError) :
  contains (error_message self) (DocumentPortalException_str self) = true
  /\ contains (file_name self) (DocumentPortalException_str self) = true
  /\ contains (pretty (lineno self)) (DocumentPortalException_str self) = true
  /\ contains (traceback_str self) (DocumentPortalException_str self) = true.
Proof.
  unfold DocumentPortalException_str.
  repeat split; repeat (first [apply contains_here | apply contains_later]).
Qed.

(** X11: the [__str__] text of a [DocumentPortalException] built from a
    text message contains that message whether or not a traceback is at
    hand; built while none is, it is the frame with "unknown", 0 and
    "No traceback available" around the message; built while one is, it
    contains the file name, the line number and the formatted traceback
    taken from it. *)
Theorem exception_text_shows_cause (text : string) (exc_info : option ExcInfo) :
  let shown := DocumentPortalException_str (DocumentPortalException_init text exc_info) in
  contains text shown = true
  /\ (exc_info = None ->
      shown = LF +:+ "        Error in [unknown] at line [0]" +:+ LF
              +:+ "        Message: " +:+ text +:+ LF
              +:+ "        Traceback:" +:+ LF
              +:+ "        No traceback available" +:+ LF +:+ "        ")
  /\ (forall tb, exc_info = Some tb ->
        contains (co_filename tb) shown = true
        /\ contains (pretty (tb_lineno tb)) shown = true
        /\ contains (formatted_exception tb) shown = true).
Proof.
  intros shown. subst shown.
  destruct (exception_text_parts (DocumentPortalException_init text exc_info))
    as (H1 & H2 & H3 & H4).
  split; [by destruct exc_info|].
  split.
  - intros ->. reflexivity.
  - intros tb ->. cbn [DocumentPortalException_init] in *. by repeat split.
Qed.

End ExceptionProperties.

Section MoreModelLoaderProperties.

Variable ext : Externals.

Lemma first_client_source (b : gmap string LLMConfig) (l : list string) (client : LLM) :
  first_client ext b l = Some client ->
  exists key cfg, In key l /\ b !! key = Some cfg /\ outcome_of ext cfg = Constructed client.
Proof.
  induction l as [|k l IH]; [discriminate|].
  cbn [first_client]. destruct (b !! k) as [cfg|] eqn:Hk.
  - destruct (outcome_of ext cfg) as [c|msg|] eqn:Ho.
    + intros [= <-]. exists k, cfg. repeat split; [by left | exact Hk | exact Ho].
    + intros H. destruct (IH H) as (key & cfg' & Hin & Hrest). exists key, cfg'.
      split; [by right | exact Hrest].
    + intros H. destruct (IH H) as (key & cfg' & Hin & Hrest). exists key, cfg'.
      split; [by right | exact Hrest].
  - intros H. destruct (IH H) as (key & cfg' & Hin & Hrest). exists key, cfg'.
    split; [by right | exact Hrest].
Qed.

(** X6: every client [load_llm] returns was built from the configuration
    entry of a provider key that has a credential: its class is the one
    the entry's [provider] field names, its model the entry's
    [model_name]; its temperature is the value the entry gives under
    [temperature], a null included, and 0.2 only when the entry has no
    such key; its token budget is likewise the value under
    [max_output_tokens], a null included, and 2048 only when the key is
    absent, except for [ChatGroq], which is given none. *)
Theorem load_llm_client_source (self : ModelLoader) (w : World) (client : LLM) :
  fst (load_llm ext self w) = Ok client ->
  exists b key cfg cls,
    llm (config self) = Some b
    /\ In key ["openai"; "google"; "groq"]
    /\ truthy (dict_get (credential_slot key) (api_keys self)) = true
    /\ b !! key = Some cfg
    /\ dispatch (provider cfg) = Some cls
    /\ llm_class client = cls
    /\ llm_model client = model_name cfg
    /\ llm_temperature client
       = match temperature cfg with
         | Some given => given
         | None => Some (2 # 10)%Q
         end
    /\ llm_max_tokens client
       = match cls with
         | ChatGroq => None
         | _ => Some match max_output_tokens cfg with
                     | Some given => given
                     | None => Some 2048%Z
                     end
         end.
Proof.
  destruct (llm (config self)) as [b|] eqn:Hb;
    [|unfold load_llm; rewrite Hb; discriminate].
  rewrite (load_llm_candidates ext self b w Hb).
  destruct (provider_priority (api_keys self)); [discriminate|]. cbn [fst].
  destruct (first_client ext b (candidates (api_keys self) b)) as [c|] eqn:Hf; [|discriminate].
  intros [= ->].
  destruct (first_client_source b _ client Hf) as (key & cfg & Hin & Hk & Ho).
  unfold candidates in Hin. apply filter_In in Hin as [Hin Hcred].
  apply andb_true_iff in Hcred as [Hcred _].
  unfold outcome_of in Ho. destruct (dispatch (provider cfg)) as [cls|] eqn:Hd; [|discriminate].
  destruct (chat_fault ext cls (model_name cfg) (entry_temperature cfg) (budget cls cfg));
    [discriminate|].
  injection Ho as <-. exists b, key, cfg, cls. repeat split; try assumption.
Qed.

(** X7: [load_llm] writes to the log and to nothing else, and the only
    exceptions that leave it are the [KeyError] for a configuration
    without an [llm] block, raised before anything is logged, the
    [ValueError] of the empty credential list, and the repository's
    exception reporting that every provider failed; it never exits the
    process and never lets a constructor's exception through. *)
Theorem load_llm_outcomes (self : ModelLoader) (w : World) :
  (exists evs, snd (load_llm ext self w) = say evs w)
  /\ (llm (config self) = None -> load_llm ext self w = (Raise (KeyError "llm"), w))
  /\ forall e,
       fst (load_llm ext self w) = Raise e ->
       (e = KeyError "llm" /\ llm (config self) = None)
       \/ (e = ValueError "No LLM API keys configured"
           /\ provider_priority (api_keys self) = [])
       \/ exists last,
            e = DocumentPortalException
                  ("Could not load any LLM provider. Last error: " +:+ last).
Proof.
  destruct (llm (config self)) as [b|] eqn:Hb.
  - rewrite (load_llm_run ext self b w Hb).
    destruct (provider_priority (api_keys self)) as [|k ks]; cbn [fst snd].
    + split; [eauto|]. split; [discriminate|]. intros e [= <-]. right. left. by split.
    + split; [eauto|]. split; [discriminate|]. intros e.
      destruct (first_client ext b (k :: ks)); [discriminate|].
      intros [= <-]. right. right. unfold exhausted_message. eauto.
  - unfold load_llm. rewrite Hb. unfold raise. cbn [fst snd].
    split; [exists []; by rewrite say_nil|]. split; [reflexivity|].
    intros e [= <-]. left. by split.
Qed.

Lemma loop_agrees (b b' : gmap string LLMConfig) (l : list string) :
  (forall key, In key l -> b !! key = b' !! key) ->
  forall last,
    first_client ext b l = first_client ext b' l
    /\ last_failure ext b l last = last_failure ext b' l last
    /\ loop_events ext b l last = loop_events ext b' l last.
Proof.
  induction l as [|k l IH]; intros Hl last; [by repeat split|].
  cbn [first_client last_failure loop_events].
  rewrite <- (Hl k (or_introl eq_refl)).
  assert (Hl' : forall key, In key l -> b !! key = b' !! key)
    by (intros key Hkey; apply Hl; by right).
  destruct (b !! k) as [cfg|]; [|apply (IH Hl')].
  destruct (outcome_of ext cfg) as [c|msg|].
  - destruct (IH Hl' last) as (_ & H2 & _). by rewrite H2.
  - destruct (IH Hl' (Some (LibraryError msg))) as (H1 & H2 & H3).
    by rewrite H1, H2, H3.
  - destruct (IH Hl' last) as (H1 & H2 & H3). by rewrite H1, H2, H3.
Qed.

Lemma provider_priority_incl (keys : ApiKeys) (key : string) :
  In key (provider_priority keys) -> In key priority_order.
Proof.
  unfold provider_priority, priority_order. rewrite !in_app_iff.
  destruct (truthy (dict_get "OPENAI_API_KEY" keys)),
    (truthy (dict_get "GOOGLE_API_KEY" keys)),
    (truthy (dict_get "GROQ_API_KEY" keys)); cbn [In]; tauto.
Qed.

(** X14: with the Groq credential as the only one, [load_llm] passes
    over the entries of the other providers, whatever they hold: when the
    entry under [groq] names provider [groq] and the constructor does not
    raise, it returns the [ChatGroq] client, built with the entry's model
    and temperature and without a token budget. *)
Theorem load_llm_groq_only (self : ModelLoader) (b : gmap string LLMConfig) (w : World)
    (cfg : LLMConfig) :
  llm (config self) = Some b ->
  truthy (dict_get "OPENAI_API_KEY" (api_keys self)) = false ->
  truthy (dict_get "GOOGLE_API_KEY" (api_keys self)) = false ->
  truthy (dict_get "GROQ_API_KEY" (api_keys self)) = true ->
  b !! "groq" = Some cfg ->
  provider cfg = Some "groq" ->
  chat_fault ext ChatGroq (model_name cfg) (entry_temperature cfg) None = None ->
  fst (load_llm ext self w)
  = Ok {| llm_class := ChatGroq; llm_model := model_name cfg;
          llm_temperature := entry_temperature cfg; llm_max_tokens := None |}.
Proof.
  intros Hb Ho Hg Hq Hk Hp Hc. rewrite (load_llm_run ext self b w Hb).
  unfold provider_priority. rewrite Ho, Hg, Hq. cbn [app fst first_client].
  rewrite Hk, (outcome_of_constructed ext cfg ChatGroq); [reflexivity | by rewrite Hp | exact Hc].
Qed.

(** X8: [load_llm] reads the [llm] block under the keys [openai],
    [google] and [groq] only: two loaders with the same credentials whose
    [llm] blocks agree on these three keys behave alike, whatever other
    entries the blocks hold and whatever the rest of the configuration
    is. *)
Theorem load_llm_reads_three_keys (self self' : ModelLoader)
    (b b' : gmap string LLMConfig) (w : World) :
  api_keys self = api_keys self' ->
  llm (config self) = Some b ->
  llm (config self') = Some b' ->
  (forall key, In key ["openai"; "google"; "groq"] -> b !! key = b' !! key) ->
  load_llm ext self w = load_llm ext self' w.
Proof.
  intros Hkeys Hb Hb' Hagree.
  rewrite (load_llm_run ext self b w Hb), (load_llm_run ext self' b' w Hb'), <- Hkeys.
  destruct (provider_priority (api_keys self)) as [|k ks] eqn:Hp; [reflexivity|].
  destruct (loop_agrees b b' (k :: ks)) with (last := @None Exception) as (H1 & H2 & H3).
  { intros key Hkey. apply Hagree. apply (provider_priority_incl (api_keys self)).
    by rewrite Hp. }
  cbv zeta. by rewrite H1, H2, H3.
Qed.

(** X9: [ModelLoader()] merges the [.env] file into the environment,
    then validates the credentials, then loads the configuration.  With
    no credential in the merged environment it raises the missing-keys
    exception whatever the configuration loader would do; with one, it
    raises what the configuration loader raises, or returns the loader
    holding the three credential slots and the configuration.  The merged
    environment stays in place in every case. *)
Theorem ModelLoader_init_outcomes (w : World) :
  let env := load_dotenv ext (environ w) in
  (has_credential env = false ->
   fst (ModelLoader_init ext w) = Raise (DocumentPortalException no_keys_message))
  /\ (has_credential env = true ->
      forall e, load_config ext = Raise e -> fst (ModelLoader_init ext w) = Raise e)
  /\ (has_credential env = true ->
      forall c, load_config ext = Ok c ->
        fst (ModelLoader_init ext w) = Ok {| api_keys := keys_of env; config := c |})
  /\ environ (snd (ModelLoader_init ext w)) = env
  /\ listing (snd (ModelLoader_init ext w)) = listing w
  /\ faiss_files (snd (ModelLoader_init ext w)) = faiss_files w.
Proof.
  intros env. unfold ModelLoader_init, bind. rewrite validate_env_run.
  cbn [environ dotenv_world]. fold env.
  destruct (has_credential env).
  - destruct (load_config ext) as [c|e]; cbn [fst snd];
      (split; [discriminate|]); (split; [intros _ ? [= <-]; reflexivity|]);
      (split; [intros _ ? [= <-]; reflexivity || discriminate|]); repeat split.
  - cbn [fst snd]. split; [reflexivity|]. repeat split; discriminate.
Qed.

(** X10: [load_embeddings] looks the model name up before it tests the
    credential: when the configuration has no [embedding_model] block, or
    the block no [model_name], it raises the repository's exception with
    the text of the [KeyError], with or without a Google credential, and
    logs the error; nothing but the log changes. *)
Theorem load_embeddings_missing_model_name (self : ModelLoader) (w : World) :
  (embedding_model (config self) = None ->
   fst (load_embeddings ext self w)
   = Raise (DocumentPortalException "Failed to load embedding model: 'embedding_model'"))
  /\ (forall ec, embedding_model (config self) = Some ec -> emb_model_name ec = None ->
        fst (load_embeddings ext self w)
        = Raise (DocumentPortalException "Failed to load embedding model: 'model_name'"))
  /\ exists evs,
       snd (load_embeddings ext self w) = say evs w
       /\ (is_Raise (fst (load_embeddings ext self w)) = true ->
           existsb is_diagnostic evs = true).
Proof.
  unfold load_embeddings, try_except, bind, log_info, log_error, emit,
    embedding_model_name, GoogleGenerativeAIEmbeddings, raise, ret.
  split; [|split].
  - intros ->. reflexivity.
  - intros ec -> ->. reflexivity.
  - destruct (embedding_model (config self)) as [ec|]; cbn [fst snd is_Exception].
    + destruct (emb_model_name ec) as [model|]; cbn [fst snd is_Exception].
      * destruct (truthy (dict_get "GOOGLE_API_KEY" (api_keys self))); cbn [negb fst snd is_Exception].
        -- destruct (embeddings_fault ext model); cbn [fst snd is_Exception is_Raise];
             rewrite ?say_app; eexists; (split; [reflexivity|]); [reflexivity|discriminate].
        -- rewrite !say_app. eexists; split; reflexivity.
      * rewrite !say_app. eexists; split; reflexivity.
    + rewrite !say_app. eexists; split; reflexivity.
Qed.

End MoreModelLoaderProperties.

Section MoreIngestionProperties.

Variable ext : Externals.

Ltac run' :=
  unfold sys_exit, bind, ret, raise, try_except, log_info, log_warning, log_error,
    print, emit, getenv;
  cbn [fst snd is_Exception].

(** X1: without [GOOGLE_API_KEY] and [GEMINI_API_KEY] in the environment
    [ingest_documents] ends in [sys.exit(1)] at once, whatever other
    credentials, directories and files there are: it reports the error and
    leaves everything but the console as it was. *)
Theorem ingest_requires_embedding_credential (docs_dir dir : string) (cs co : Z)
    (w : World) :
  truthy (environ w !! "GOOGLE_API_KEY") = false ->
  truthy (environ w !! "GEMINI_API_KEY") = false ->
  exists evs,
    ingest_documents ext docs_dir dir cs co w = (Raise (SystemExit 1), say evs w)
    /\ existsb is_diagnostic evs = true
    /\ existsb is_print evs = true.
Proof.
  intros Hg Hm. unfold ingest_documents. unfold bind at 1.
  destruct (check_credentials_run w) as (evs & -> & Hevs).
  unfold has_google in *. rewrite Hg, Hm in *. cbn [orb] in *.
  destruct (Hevs eq_refl). eauto.
Qed.

Lemma is_pdf_iff (name : string) :
  is_pdf name = true <-> exists stem, name = stem +:+ ".pdf".
Proof.
  unfold is_pdf. rewrite andb_true_iff, Nat.leb_le, String.eqb_eq. split.
  - intros [Hlen Hsub]. exists (substring 0 (String.length name - 4) name).
    pose proof (substring_split name (String.length name - 4)) as Hsplit.
    replace (String.length name - (String.length name - 4))%nat with 4%nat in Hsplit by lia.
    rewrite Hsub in Hsplit. apply Hsplit. lia.
  - intros [stem ->]. rewrite length_append. cbn [String.length]. split; [lia|].
    replace (String.length stem + 4 - 4)%nat with (String.length stem + 0)%nat by lia.
    rewrite substring_append_skip. reflexivity.
Qed.

(** X2: the files [ingest_documents] takes up are the entries of the
    source directory whose names end in ".pdf", and no others; discovery
    never yields an empty list. *)
Theorem discover_finds_pdf_names (docs_dir : string) (w : World) (files : list string) :
  fst (discover docs_dir w) = Ok files ->
  files <> []
  /\ exists entries,
       listing w !! docs_dir = Some entries
       /\ forall name,
            In name files <-> In name entries /\ exists stem, name = stem +:+ ".pdf".
Proof.
  destruct (discover_run docs_dir w) as (evs & -> & _). cbn [fst].
  destruct (listing w !! docs_dir) as [entries|] eqn:Hl; [|discriminate].
  destruct (pdf_files_in w docs_dir) as [|f fs] eqn:Hf; [discriminate|].
  intros [= <-]. split; [discriminate|]. exists entries. split; [reflexivity|].
  intros name. rewrite <- Hf. unfold pdf_files_in. rewrite Hl. cbn [default from_option id].
  by rewrite filter_In, is_pdf_iff.
Qed.

Lemma ingest_reaches_model (docs_dir dir : string) (cs co : Z) (w : World) :
  has_google (environ w) = true ->
  listing w !! docs_dir <> None ->
  pdf_files_in w docs_dir <> [] ->
  exists evs,
    ingest_documents ext docs_dir dir cs co w
    = (embeddings <- load_model ext ;;
       all_documents <- load_all ext docs_dir (pdf_files_in w docs_dir) ;;
       chunks <- split_all ext cs co all_documents ;;
       persist ext dir embeddings chunks ;;
       summary docs_dir dir (pdf_files_in w docs_dir) (length all_documents) chunks)
        (say evs w).
Proof.
  intros Hg Hl Hp. unfold ingest_documents.
  unfold bind at 1. destruct (check_credentials_run w) as (e1 & -> & _). rewrite Hg.
  unfold bind at 1. destruct (discover_run docs_dir (say e1 w)) as (e2 & -> & _).
  change (pdf_files_in (say e1 w) docs_dir) with (pdf_files_in w docs_dir).
  rewrite listing_say.
  destruct (listing w !! docs_dir); [|done].
  destruct (pdf_files_in w docs_dir) as [|f fs] eqn:Hpdf; [done|].
  exists (e1 ++ e2). by rewrite say_app.
Qed.

Lemma load_model_exit (w : World) :
  (forall model, ~ embeddings_ready ext (environ w) model) ->
  (forall e, load_config ext = Raise e -> is_Exception e = true) ->
  exists evs,
    load_model ext w = (Raise (SystemExit 1), say evs (dotenv_world ext w))
    /\ existsb is_diagnostic evs = true
    /\ existsb is_print evs = true.
Proof.
  intros Hnot Hcfg.
  unfold load_model, ModelLoader_init, load_embeddings, embedding_model_name,
    GoogleGenerativeAIEmbeddings. run'.
  rewrite validate_env_run. cbn [environ dotenv_world say].
  assert (Hclose : forall (evs : list Event) (W : World),
             W = say evs (dotenv_world ext w) ->
             existsb is_diagnostic evs = true -> existsb is_print evs = true ->
             exists evs',
               (@Raise Embeddings (SystemExit 1), W)
               = (Raise (SystemExit 1), say evs' (dotenv_world ext w))
               /\ existsb is_diagnostic evs' = true /\ existsb is_print evs' = true).
  { intros evs W -> Hd Hp. eauto. }
  destruct (has_credential (load_dotenv ext (environ w))) eqn:Hc; cbn [fst snd is_Exception].
  - destruct (load_config ext) as [c|e] eqn:Hload; cbn [fst snd api_keys config].
    + destruct (embedding_model c) as [ec|] eqn:Hec; cbn [fst snd is_Exception].
      * destruct (emb_model_name ec) as [model|] eqn:Hm; cbn [fst snd is_Exception].
        -- destruct (dict_get_keys_of (load_dotenv ext (environ w))) as (-> & _ & _).
           rewrite truthy_py_or. fold (has_google (load_dotenv ext (environ w))).
           destruct (has_google (load_dotenv ext (environ w))) eqn:Hg;
             cbn [negb fst snd is_Exception].
           ++ destruct (embeddings_fault ext model) as [msg|] eqn:Hf;
                cbn [fst snd is_Exception].
              ** eapply Hclose; [unfold say, dotenv_world; cbn [environ listing faiss_files console]; rewrite <- ?app_assoc; reflexivity | reflexivity ..].
              ** exfalso. apply (Hnot model). split; [exact Hg|]. eauto 10.
           ++ eapply Hclose; [unfold say, dotenv_world; cbn [environ listing faiss_files console]; rewrite <- ?app_assoc; reflexivity | reflexivity ..].
        -- eapply Hclose; [unfold say, dotenv_world; cbn [environ listing faiss_files console]; rewrite <- ?app_assoc; reflexivity | reflexivity ..].
      * eapply Hclose; [unfold say, dotenv_world; cbn [environ listing faiss_files console]; rewrite <- ?app_assoc; reflexivity | reflexivity ..].
    + rewrite (Hcfg e eq_refl).
      eapply Hclose; [unfold say, dotenv_world; cbn [environ listing faiss_files console]; rewrite <- ?app_assoc; reflexivity | reflexivity ..].
  - eapply Hclose; [unfold say, dotenv_world; cbn [environ listing faiss_files console]; rewrite <- ?app_assoc; reflexivity | reflexivity ..].
Qed.


(** X3: when the embedding client cannot be had (no credential left after
    [load_dotenv], a configuration loader that raises, no model name in
    the configuration, or a constructor that raises), [ingest_documents]
    ends in [sys.exit(1)] before any PDF is opened; it reports the error,
    creates no directory and writes no index. *)
Theorem ingest_exits_when_embeddings_fail (docs_dir dir : string) (cs co : Z) (w : World) :
  has_google (environ w) = true ->
  listing w !! docs_dir <> None ->
  pdf_files_in w docs_dir <> [] ->
  (forall model, ~ embeddings_ready ext (environ w) model) ->
  (forall e, load_config ext = Raise e -> is_Exception e = true) ->
  exists evs,
    ingest_documents ext docs_dir dir cs co w
    = (Raise (SystemExit 1), say evs (dotenv_world ext w))
    /\ existsb is_diagnostic evs = true
    /\ listing (say evs (dotenv_world ext w)) = listing w
    /\ faiss_files (say evs (dotenv_world ext w)) = faiss_files w.
Proof.
  intros Hg Hl Hp Hnot Hcfg.
  destruct (ingest_reaches_model docs_dir dir cs co w Hg Hl Hp) as (e0 & ->).
  unfold bind at 1.
  destruct (load_model_exit (say e0 w) Hnot Hcfg) as (e1 & -> & Hd & _).
  exists (e0 ++ e1). split; [|split; [|split; reflexivity]].
  - f_equal. unfold say, dotenv_world. cbn [environ listing faiss_files console].
    by rewrite app_assoc.
  - rewrite existsb_app, Hd. apply orb_true_r.
Qed.


Lemma ingest_reaches_split (docs_dir dir : string) (cs co : Z) (w : World) (model : string) :
  has_google (environ w) = true ->
  listing w !! docs_dir <> None ->
  embeddings_ready ext (environ w) model ->
  loaded ext docs_dir (pdf_files_in w docs_dir) <> [] ->
  exists evs,
    ingest_documents ext docs_dir dir cs co w
    = (chunks <- split_all ext cs co (loaded ext docs_dir (pdf_files_in w docs_dir)) ;;
       persist ext dir {| emb_model := model |} chunks ;;
       summary docs_dir dir (pdf_files_in w docs_dir)
         (length (loaded ext docs_dir (pdf_files_in w docs_dir))) chunks)
        (say evs (dotenv_world ext w)).
Proof.
  intros Hg Hl Hready Hdocs.
  assert (Hne : pdf_files_in w docs_dir <> []).
  { intros Hnil. apply Hdocs. by rewrite Hnil. }
  destruct (ingest_reaches_load ext docs_dir dir cs co w model Hg Hl Hne Hready) as (e0 & ->).
  unfold bind at 1.
  destruct (load_all_run ext docs_dir (pdf_files_in w docs_dir) (say e0 (dotenv_world ext w)))
    as (e1 & -> & _).
  destruct (loaded ext docs_dir (pdf_files_in w docs_dir)) as [|d ds] eqn:Hloaded; [done|].
  exists (e0 ++ e1). by rewrite say_app.
Qed.

(** X4: an exception raised by the text splitter is not caught: it leaves
    [ingest_documents] as it is, not as [sys.exit], after the PDFs have
    been loaded and before any directory is created or index written. *)
Theorem ingest_splitter_error_propagates (docs_dir dir : string) (cs co : Z) (w : World)
    (model msg : string) :
  has_google (environ w) = true ->
  listing w !! docs_dir <> None ->
  embeddings_ready ext (environ w) model ->
  loaded ext docs_dir (pdf_files_in w docs_dir) <> [] ->
  split_documents ext cs co (loaded ext docs_dir (pdf_files_in w docs_dir)) = inl msg ->
  exists evs,
    ingest_documents ext docs_dir dir cs co w
    = (Raise (LibraryError msg), say evs (dotenv_world ext w))
    /\ listing (say evs (dotenv_world ext w)) = listing w
    /\ faiss_files (say evs (dotenv_world ext w)) = faiss_files w.
Proof.
  intros Hg Hl Hready Hdocs Hsplit.
  destruct (ingest_reaches_split docs_dir dir cs co w model Hg Hl Hready Hdocs) as (e0 & ->).
  unfold bind at 1.
  destruct (split_all_run ext cs co (loaded ext docs_dir (pdf_files_in w docs_dir))
              (say e0 (dotenv_world ext w))) as (e1 & -> & _).
  rewrite Hsplit. exists (e0 ++ e1). rewrite say_app. repeat split.
Qed.

Lemma ingest_reaches_persist (docs_dir dir : string) (cs co : Z) (w : World)
    (model : string) (chunks : list Document) :
  has_google (environ w) = true ->
  listing w !! docs_dir <> None ->
  embeddings_ready ext (environ w) model ->
  loaded ext docs_dir (pdf_files_in w docs_dir) <> [] ->
  split_documents ext cs co (loaded ext docs_dir (pdf_files_in w docs_dir)) = inr chunks ->
  exists evs,
    ingest_documents ext docs_dir dir cs co w
    = (persist ext dir {| emb_model := model |} chunks ;;
       summary docs_dir dir (pdf_files_in w docs_dir)
         (length (loaded ext docs_dir (pdf_files_in w docs_dir))) chunks)
        (say evs (dotenv_world ext w)).
Proof.
  intros Hg Hl Hready Hdocs Hsplit.
  destruct (ingest_reaches_split docs_dir dir cs co w model Hg Hl Hready Hdocs) as (e0 & ->).
  unfold bind at 1.
  destruct (split_all_run ext cs co (loaded ext docs_dir (pdf_files_in w docs_dir))
              (say e0 (dotenv_world ext w))) as (e1 & -> & _).
  rewrite Hsplit. exists (e0 ++ e1). by rewrite say_app.
Qed.

Lemma persist_mkdir_fails (dir : string) (embeddings : Embeddings) (chunks : list Document)
    (w : World) (msg : string) (made : gmap string (list string)) :
  mkdir_outcome ext dir (listing w) = (Some msg, made) ->
  exists evs,
    persist ext dir embeddings chunks w
    = (Raise (LibraryError msg),
       say evs {| environ := environ w; listing := made;
                  faiss_files := faiss_files w; console := console w |}).
Proof.
  intros Hmk. unfold persist, mkdir. run'. cbn [listing say]. rewrite Hmk.
  eexists. unfold say. cbn [environ listing faiss_files console]. reflexivity.
Qed.

Lemma persist_fails (dir : string) (embeddings : Embeddings) (chunks : list Document)
    (w : World) (made : gmap string (list string)) :
  mkdir_outcome ext dir (listing w) = (None, made) ->
  fails_before_save ext w dir chunks ->
  exists evs,
    persist ext dir embeddings chunks w
    = (Raise (SystemExit 1),
       say evs {| environ := environ w; listing := made;
                  faiss_files := faiss_files w; console := console w |})
    /\ existsb is_diagnostic evs = true.
Proof.
  intros Hmk Hfail.
  unfold persist, build_index, mkdir, index_file_exists, FAISS_load_local,
    add_documents, FAISS_from_documents, save_local. run'.
  destruct (faiss_files w !! dir) as [store|] eqn:Hf,
    (faiss_load_fault ext dir) as [ml|] eqn:Hl,
    (embed_fault ext chunks) as [me|] eqn:He;
    try (exfalso; destruct Hfail as [[H1 H2]|H]; congruence);
    repeat (progress (run'; cbn [environ listing faiss_files console say];
                      rewrite ?Hmk, ?He, ?Hl, ?Hf));
    (eexists; split;
     [unfold say; cbn [environ listing faiss_files console];
      rewrite <- ?app_assoc; reflexivity
     | reflexivity]).
Qed.

Lemma persist_save_fails (dir : string) (embeddings : Embeddings) (chunks : list Document)
    (w : World) (made : gmap string (list string)) (msg : string) :
  mkdir_outcome ext dir (listing w) = (None, made) ->
  ~ fails_before_save ext w dir chunks ->
  faiss_save_fault ext dir = Some msg ->
  exists evs w',
    persist ext dir embeddings chunks w = (Raise (SystemExit 1), say evs w')
    /\ console w' = console w
    /\ existsb is_diagnostic evs = true.
Proof.
  intros Hmk Hnot Hs.
  unfold persist, build_index, mkdir, index_file_exists, FAISS_load_local,
    add_documents, FAISS_from_documents, save_local. run'.
  destruct (faiss_files w !! dir) as [store|] eqn:Hf,
    (faiss_load_fault ext dir) as [ml|] eqn:Hl,
    (embed_fault ext chunks) as [me|] eqn:He;
    try (exfalso; apply Hnot; unfold fails_before_save; rewrite ?Hf, ?Hl, ?He;
         first [left; split; discriminate | right; discriminate]);
    repeat (progress (run'; cbn [environ listing faiss_files console say];
                      rewrite ?Hmk, ?He, ?Hl, ?Hf, ?Hs));
    (eexists _, {| environ := environ w; listing := made;
                   faiss_files := partial_alter _ dir (faiss_files w);
                   console := console w |});
    (split; [unfold say; cbn [environ listing faiss_files console];
             rewrite <- ?app_assoc; reflexivity|]);
    split; reflexivity.
Qed.

(** X5: what a failure in the index step leaves.  An exception of
    [mkdir] is not caught: it leaves [ingest_documents] as it is, with
    the persisted indexes as they were.  Once [mkdir] has succeeded, a
    failure before the save (loading the existing index, or embedding the
    chunks) ends the run in [sys.exit(1)] after an error is reported, with
    the persisted indexes exactly as they were; a failure of the save
    itself ends it in [sys.exit(1)] after an error is reported as well. *)
Theorem ingest_index_failure_keeps_index (docs_dir dir : string) (cs co : Z) (w : World)
    (model : string) (chunks : list Document) :
  has_google (environ w) = true ->
  listing w !! docs_dir <> None ->
  embeddings_ready ext (environ w) model ->
  loaded ext docs_dir (pdf_files_in w docs_dir) <> [] ->
  split_documents ext cs co (loaded ext docs_dir (pdf_files_in w docs_dir)) = inr chunks ->
  let r := ingest_documents ext docs_dir dir cs co w in
  (forall msg made,
     mkdir_outcome ext dir (listing w) = (Some msg, made) ->
     fst r = Raise (LibraryError msg)
     /\ faiss_files (snd r) = faiss_files w)
  /\ (forall made,
        mkdir_outcome ext dir (listing w) = (None, made) ->
        fails_before_save ext w dir chunks ->
        exists evs,
          r = (Raise (SystemExit 1), say evs (prepared_world ext w made))
          /\ existsb is_diagnostic evs = true
          /\ faiss_files (snd r) = faiss_files w)
  /\ (forall made msg,
        mkdir_outcome ext dir (listing w) = (None, made) ->
        ~ fails_before_save ext w dir chunks ->
        faiss_save_fault ext dir = Some msg ->
        fst r = Raise (SystemExit 1)
        /\ exists evs,
             console (snd r) = console w ++ evs /\ existsb is_diagnostic evs = true).
Proof.
  intros Hg Hl Hready Hdocs Hsplit r.
  destruct (ingest_reaches_persist docs_dir dir cs co w model chunks Hg Hl Hready Hdocs Hsplit)
    as (e0 & Hrun).
  subst r. rewrite Hrun. clear Hrun. unfold bind.
  split; [|split].
  - intros msg made Hmk.
    destruct (persist_mkdir_fails dir {| emb_model := model |} chunks
                (say e0 (dotenv_world ext w)) msg made Hmk) as (e2 & Hp).
    rewrite Hp. split; reflexivity.
  - intros made Hmk Hfail.
    destruct (persist_fails dir {| emb_model := model |} chunks
                (say e0 (dotenv_world ext w)) made Hmk Hfail) as (e2 & Hp & Hd).
    rewrite Hp. exists (e0 ++ e2). split; [|split; [|reflexivity]].
    + f_equal. unfold say, prepared_world, dotenv_world.
      cbn [environ listing faiss_files console]. by rewrite <- !app_assoc.
    + rewrite !existsb_app, Hd, !orb_true_r. reflexivity.
  - intros made msg Hmk Hnot Hs.
    destruct (persist_save_fails dir {| emb_model := model |} chunks
                (say e0 (dotenv_world ext w)) made msg Hmk Hnot Hs)
      as (e2 & w2 & Hp & Hcon & Hd).
    rewrite Hp. split; [reflexivity|]. exists (e0 ++ e2). split.
    + cbn [snd]. unfold say at 1. cbn [console]. rewrite Hcon.
      unfold say, dotenv_world. cbn [console]. by rewrite <- !app_assoc.
    + rewrite !existsb_app, Hd, !orb_true_r. reflexivity.
Qed.

Lemma persist_run_ok (dir : string) (embeddings : Embeddings) (chunks : list Document)
    (w : World) (made : gmap string (list string)) :
  mkdir_outcome ext dir (listing w) = (None, made) ->
  embed_fault ext chunks = None ->
  faiss_load_fault ext dir = None ->
  faiss_save_fault ext dir = None ->
  exists evs,
    persist ext dir embeddings chunks w
    = (Ok tt,
       say evs {| environ := environ w; listing := made;
                  faiss_files := <[dir := updated_index w dir chunks]> (faiss_files w);
                  console := console w |}).
Proof.
  intros Hmk He Hl Hs.
  destruct (persist_ok ext dir embeddings chunks w made Hmk He Hl Hs)
    as (evs & [env' dirs' files' con'] & -> & Henv & Hdirs & Hcon & Hfiles & _).
  cbn [environ listing faiss_files console] in *. subst. eauto.
Qed.

Lemma ingest_run_world (docs_dir dir : string) (cs co : Z) (w : World)
    (model : string) (chunks : list Document) (made : gmap string (list string)) :
  has_google (environ w) = true ->
  listing w !! docs_dir <> None ->
  embeddings_ready ext (environ w) model ->
  loaded ext docs_dir (pdf_files_in w docs_dir) <> [] ->
  split_documents ext cs co (loaded ext docs_dir (pdf_files_in w docs_dir)) = inr chunks ->
  mkdir_outcome ext dir (listing w) = (None, made) ->
  embed_fault ext chunks = None ->
  faiss_load_fault ext dir = None ->
  faiss_save_fault ext dir = None ->
  exists evs,
    ingest_documents ext docs_dir dir cs co w
    = (Ok tt, say evs (ingested_world ext w dir chunks made)).
Proof.
  intros Hg Hl Hready Hdocs Hsplit Hmk He Hlf Hsf.
  destruct (ingest_reaches_split docs_dir dir cs co w model Hg Hl Hready Hdocs) as (e0 & ->).
  unfold bind at 1.
  destruct (split_all_run ext cs co (loaded ext docs_dir (pdf_files_in w docs_dir))
              (say e0 (dotenv_world ext w))) as (e1 & -> & _).
  rewrite Hsplit. unfold bind at 1.
  destruct (persist_run_ok dir {| emb_model := model |} chunks
              (say e1 (say e0 (dotenv_world ext w))) made Hmk He Hlf Hsf) as (e2 & ->).
  match goal with
  | |- context [summary ?a ?b ?c ?d ?e ?W] =>
      destruct (summary_run a b c d e W) as (e3 & ->)
  end.
  exists (e0 ++ e1 ++ e2 ++ e3). f_equal.
  unfold say, ingested_world, dotenv_world, updated_index.
  cbn [environ listing faiss_files console]. by rewrite <- !app_assoc.
Qed.

(** X12: ingestion is not idempotent.  When [mkdir] succeeds in both runs
    and leaves the listing of the source directory as it was, a second
    run over the same source directory, with the collaborators behaving
    as in the first, appends the same chunks again: the index holds what
    the first run left, followed by the chunks a second time, and every
    chunk twice when the first run started without an index. *)
Theorem ingest_twice_duplicates (docs_dir dir : string) (cs co : Z) (w : World)
    (model : string) (chunks : list Document) (made made' : gmap string (list string)) :
  has_google (environ w) = true ->
  listing w !! docs_dir <> None ->
  embeddings_ready ext (environ w) model ->
  embeddings_ready ext (load_dotenv ext (environ w)) model ->
  loaded ext docs_dir (pdf_files_in w docs_dir) <> [] ->
  split_documents ext cs co (loaded ext docs_dir (pdf_files_in w docs_dir)) = inr chunks ->
  mkdir_outcome ext dir (listing w) = (None, made) ->
  made !! docs_dir = listing w !! docs_dir ->
  mkdir_outcome ext dir made = (None, made') ->
  embed_fault ext chunks = None ->
  faiss_load_fault ext dir = None ->
  faiss_save_fault ext dir = None ->
  let first := ingest_documents ext docs_dir dir cs co w in
  let second := ingest_documents ext docs_dir dir cs co (snd first) in
  fst first = Ok tt
  /\ fst second = Ok tt
  /\ faiss_files (snd first) !! dir = Some (updated_index w dir chunks)
  /\ faiss_files (snd second) !! dir = Some (updated_index w dir chunks ++ chunks)
  /\ (faiss_files w !! dir = None ->
      faiss_files (snd second) !! dir = Some (chunks ++ chunks)).
Proof.
  intros Hg Hl Hready Hready' Hdocs Hsplit Hmk Hsame Hmk' He Hlf Hsf first second.
  destruct (ingest_run_world docs_dir dir cs co w model chunks made Hg Hl Hready Hdocs Hsplit
              Hmk He Hlf Hsf) as (e1 & H1).
  subst second first. rewrite H1. cbn [fst snd].
  set (w1 := say e1 (ingested_world ext w dir chunks made)).
  assert (Hfiles : pdf_files_in w1 docs_dir = pdf_files_in w docs_dir).
  { unfold pdf_files_in. subst w1. cbn [listing say ingested_world]. by rewrite Hsame. }
  assert (Hindex : faiss_files w1 !! dir = Some (updated_index w dir chunks)).
  { subst w1. cbn [faiss_files say ingested_world]. apply lookup_insert_eq. }
  destruct (ingest_run_world docs_dir dir cs co w1 model chunks made') as (e2 & H2);
    try assumption.
  - subst w1. cbn [environ say ingested_world]. by destruct Hready.
  - subst w1. cbn [listing say ingested_world]. by rewrite Hsame.
  - by rewrite Hfiles.
  - by rewrite Hfiles.
  - rewrite H2. cbn [fst snd faiss_files say ingested_world].
    split; [reflexivity|]. split; [reflexivity|]. split; [exact Hindex|].
    assert (Hup : updated_index w1 dir chunks = updated_index w dir chunks ++ chunks).
    { unfold updated_index at 1. by rewrite Hindex. }
    rewrite Hup. split; [apply lookup_insert_eq|].
    intros Hnone. rewrite lookup_insert_eq. unfold updated_index. by rewrite Hnone.
Qed.

(** X13: the load loop changes nothing of a page but the two metadata
    keys it writes: every record of [all_documents] has the text of a page
    the PDF loader returned for one of the files, and that page's metadata
    under every key other than [source_file] and [source_path]. *)
Theorem load_loop_keeps_pages (docs_dir : string) (pdf_files : list string) (w : World)
    (docs : list Document) (doc : Document) :
  fst (load_loop ext docs_dir pdf_files [] w) = Ok docs ->
  In doc docs ->
  exists name pages page,
    In name pdf_files
    /\ pdf_load ext (path_join ext docs_dir name) = inr pages
    /\ In page pages
    /\ page_content doc = page_content page
    /\ forall key, key <> "source_file" -> key <> "source_path" ->
         metadata doc !! key = metadata page !! key.
Proof.
  destruct (load_loop_run ext docs_dir pdf_files [] w) as (evs & -> & _).
  cbn [fst app]. intros [= <-]. unfold loaded. rewrite in_concat.
  intros (tagged & Htagged & Hdoc). apply in_map_iff in Htagged as (name & <- & Hname).
  unfold pages_of in Hdoc.
  destruct (pdf_load ext (path_join ext docs_dir name)) as [msg|pages] eqn:Hload; [destruct Hdoc|].
  apply in_map_iff in Hdoc as (page & <- & Hpage).
  exists name, pages, page. repeat split; try assumption.
  intros key Hfile Hpath. unfold tag. cbn [metadata].
  rewrite !lookup_insert_ne by congruence. reflexivity.
Qed.

End MoreIngestionProperties.

(** * The theorems on sample runs *)

Lemma validate_env_credentials_witness :
  _validate_env (world [("GEMINI_API_KEY", "g-test"); ("OPENAI_API_KEY", "")] [] None)
  = (Ok [("GOOGLE_API_KEY", Some "g-test"); ("GROQ_API_KEY", None);
         ("OPENAI_API_KEY", Some "")],
     say [Log INFO "Available LLM providers" [("providers", FStrs ["GOOGLE_API_KEY"])]]
       (world [("GEMINI_API_KEY", "g-test"); ("OPENAI_API_KEY", "")] [] None))
  /\ fst (_validate_env (world [("OPENAI_API_KEY", "")] [] None))
     = Raise (DocumentPortalException no_keys_message)
  /\ Forall (fun name => contains name no_keys_message = true)
       ["GOOGLE_API_KEY"; "GROQ_API_KEY"; "OPENAI_API_KEY"].
Proof.
  split.
  - destruct (validate_env_credentials
                (world [("GEMINI_API_KEY", "g-test"); ("OPENAI_API_KEY", "")] [] None))
      as [H _].
    destruct H as (keys & Hrun & _ & _ & _ & _ & Hkeys & Havail & _).
    + exists "GEMINI_API_KEY". split; [cbn; tauto | vm_compute; reflexivity].
    + rewrite Hrun, Havail, Hkeys. vm_compute. reflexivity.
  - destruct (validate_env_credentials (world [("OPENAI_API_KEY", "")] [] None)) as [_ H].
    destruct H as [Hrun Hnames].
    + intros k Hk. cbn in Hk.
      destruct Hk as [<-|[<-|[<-|[<-|[]]]]]; vm_compute; reflexivity.
    + split; [exact Hrun|].
      apply List.Forall_forall. intros name Hname.
      apply (proj1 (List.Forall_forall _ _) Hnames name Hname).
Defined.

Lemma load_llm_priority_witness :
  fst (load_llm (externals full_block []) (loader env_openai_google full_block)
         (world env_openai_google [] None))
  = Ok {| llm_class := ChatOpenAI; llm_model := Some "gpt-4o-mini";
          llm_temperature := Some 0%Q; llm_max_tokens := Some (Some 2048%Z) |}.
Proof.
  destruct (load_llm_priority (externals full_block []) (loader env_openai_google full_block)
              full_block (world env_openai_google [] None) eq_refl)
    as (_ & _ & _ & _ & _ & H).
  apply (H (entry (Some "openai") "gpt-4o-mini")); vm_compute; reflexivity.
Defined.

(** C1 as stated fails: with both credentials, both entries and no
    constructor failing, an [openai] entry that has no [provider] field is
    passed over and the client returned is Google's. *)
Lemma load_llm_priority_counterexample :
  let self := loader env_openai_google block_openai_unnamed in
  let ext := externals block_openai_unnamed [] in
  truthy (dict_get "OPENAI_API_KEY" (api_keys self)) = true
  /\ truthy (dict_get "GOOGLE_API_KEY" (api_keys self)) = true
  /\ has_entry block_openai_unnamed "openai" = true
  /\ has_entry block_openai_unnamed "google" = true
  /\ (forall cls model temp budget, chat_fault ext cls model temp budget = None)
  /\ fst (load_llm ext self (world env_openai_google [] None))
     = Ok {| llm_class := ChatGoogleGenerativeAI; llm_model := Some "gemini-2.0-flash";
             llm_temperature := Some 0%Q; llm_max_tokens := Some (Some 2048%Z) |}.
Proof. repeat split; vm_compute; reflexivity. Qed.

Lemma load_llm_fallback_witness :
  fst (load_llm (externals full_block [ChatOpenAI]) (loader env_openai_google full_block)
         (world env_openai_google [] None))
  = Ok {| llm_class := ChatGoogleGenerativeAI; llm_model := Some "gemini-2.0-flash";
          llm_temperature := Some 0%Q; llm_max_tokens := Some (Some 2048%Z) |}.
Proof.
  destruct (load_llm_fallback (externals full_block [ChatOpenAI])
              (loader env_openai_google full_block) full_block
              (world env_openai_google [] None) eq_refl) as (_ & _ & H).
  apply (H (entry (Some "openai") "gpt-4o-mini") (entry (Some "google") "gemini-2.0-flash")
           "model not found"); vm_compute; reflexivity.
Defined.

(** C2 as stated fails: the OpenAI constructor raises, the Google
    credential and an entry under [google] are present and no other
    constructor would raise, yet that entry has no [provider] field, no
    Google client is built and [load_llm] raises. *)
Lemma load_llm_fallback_counterexample :
  let self := loader env_openai_google block_google_unnamed in
  let ext := externals block_google_unnamed [ChatOpenAI] in
  outcome_of ext (entry (Some "openai") "gpt-4o-mini") = Failed "model not found"
  /\ truthy (dict_get "GOOGLE_API_KEY" (api_keys self)) = true
  /\ has_entry block_google_unnamed "google" = true
  /\ (forall model temp budget,
        chat_fault ext ChatGoogleGenerativeAI model temp budget = None)
  /\ fst (load_llm ext self (world env_openai_google [] None))
     = Raise (DocumentPortalException
                "Could not load any LLM provider. Last error: model not found").
Proof. repeat split; vm_compute; reflexivity. Qed.



Lemma load_embeddings_google_only_witness :
  (exists msg,
     fst (load_embeddings (externals full_block []) (loader env_openai full_block)
            (world env_openai [] None))
     = Raise (DocumentPortalException ("Failed to load embedding model: " +:+ msg)))
  /\ fst (load_embeddings (externals full_block []) (loader env_gemini full_block)
            (world env_gemini [] None))
     = Ok {| emb_model := "models/text-embedding-004" |}.
Proof.
  split.
  - destruct (load_embeddings_google_only (externals full_block [])
                (loader env_openai full_block) (world env_openai [] None)) as [H _].
    destruct H as (msg & Hmsg & _); [vm_compute; reflexivity|]. eauto.
  - destruct (load_embeddings_google_only (externals full_block [])
                (loader env_gemini full_block) (world env_gemini [] None)) as [_ H].
    apply (H eq_refl {| emb_model_name := Some "models/text-embedding-004" |}
             "models/text-embedding-004" eq_refl eq_refl).
Defined.

Lemma constructed_loader_has_provider_witness :
  provider_priority (api_keys (loader env_openai block_groq_only)) <> [].
Proof.
  apply (constructed_loader_has_provider (externals block_groq_only [])
           (world env_openai [] None)
           (snd (ModelLoader_init (externals block_groq_only []) (world env_openai [] None)))
           (loader env_openai block_groq_only)).
  vm_compute. reflexivity.
Defined.

Lemma ingest_requires_pdf_files_witness :
  exists code evs,
    ingest_documents (externals full_block []) "data/rag_docs" "rag/vectorstore" 800 200
      (world env_gemini ["notes.txt"; "pdf"] None)
    = (Raise (SystemExit code), say evs (world env_gemini ["notes.txt"; "pdf"] None))
    /\ code <> 0%Z.
Proof.
  destruct (ingest_requires_pdf_files (externals full_block []) "data/rag_docs"
              "rag/vectorstore" 800 200 (world env_gemini ["notes.txt"; "pdf"] None))
    as (code & evs & Hrun & Hcode & _).
  - right. vm_compute. reflexivity.
  - exists code, evs. split; assumption.
Defined.

Lemma ingest_skips_unreadable_files_witness :
  (exists evs,
     load_loop (externals full_block []) "data/rag_docs" ["broken.pdf"; "calm.pdf"] []
       (world env_gemini ["broken.pdf"; "calm.pdf"] None)
     = (Ok calm_pages, say evs (world env_gemini ["broken.pdf"; "calm.pdf"] None))
     /\ In (load_failure_event "broken.pdf" "EOF marker not found") evs)
  /\ loaded (externals full_block []) "data/rag_docs" ["broken.pdf"; "calm.pdf"]
     = loaded (externals full_block []) "data/rag_docs" ["calm.pdf"]
  /\ loaded (externals full_block []) "data/rag_docs" ["broken.pdf"; "calm.pdf"]
     = calm_pages
  /\ exists evs,
       ingest_documents (externals full_block []) "data/rag_docs" "rag/vectorstore" 800 200
         (world env_gemini ["broken.pdf"] (Some earlier_index))
       = (Raise (SystemExit 1),
          say evs (dotenv_world (externals full_block [])
                     (world env_gemini ["broken.pdf"] (Some earlier_index))))
       /\ In (Log ERROR "No documents loaded successfully" []) evs
       /\ faiss_files
            (say evs (dotenv_world (externals full_block [])
                        (world env_gemini ["broken.pdf"] (Some earlier_index))))
          !! "rag/vectorstore" = Some earlier_index.
Proof.
  destruct (ingest_skips_unreadable_files (externals full_block []) "data/rag_docs"
              ["broken.pdf"; "calm.pdf"] (world env_gemini ["broken.pdf"; "calm.pdf"] None))
    as ((evs & Hrun & Hfail) & Hskip & Hkeep & _).
  split; [|split; [|split]].
  - exists evs. split.
    + rewrite Hrun. f_equal.
    + apply Hfail; [cbn; tauto | vm_compute; reflexivity].
  - apply (Hskip [] "broken.pdf" ["calm.pdf"] "EOF marker not found" eq_refl).
    vm_compute. reflexivity.
  - rewrite (Hkeep ["broken.pdf"] "calm.pdf" []
               [page "Breathe in." "0"; page "Breathe out." "1"; page "Rest." "2"] eq_refl);
      vm_compute; reflexivity.
  - destruct (ingest_skips_unreadable_files (externals full_block []) "data/rag_docs"
                ["broken.pdf"] (world env_gemini ["broken.pdf"] (Some earlier_index)))
      as (_ & _ & _ & H).
    destruct (H "rag/vectorstore" 800%Z 200%Z "models/text-embedding-004")
      as (evs' & Hrun' & Hlog & Hindex).
    + vm_compute. reflexivity.
    + vm_compute. discriminate.
    + vm_compute. reflexivity.
    + discriminate.
    + split; [vm_compute; reflexivity|].
      exists (config_with full_block), {| emb_model_name := Some "models/text-embedding-004" |}.
      repeat split.
    + intros name [<-|[]]. exists "EOF marker not found". vm_compute. reflexivity.
    + exists evs'. split; [exact Hrun'|]. split; [exact Hlog|]. rewrite Hindex.
      vm_compute. reflexivity.
Defined.

Lemma ingest_index_lifecycle_witness :
  faiss_files
    (snd (ingest_documents (externals full_block []) "data/rag_docs" "rag/vectorstore"
            800 200 (world env_gemini ["broken.pdf"; "calm.pdf"] (Some earlier_index))))
    !! "rag/vectorstore"
  = Some (earlier_index ++ calm_pages)
  /\ faiss_files
       (snd (ingest_documents (externals full_block []) "data/rag_docs" "rag/vectorstore"
               800 200 (world env_gemini ["calm.pdf"] None)))
       !! "rag/vectorstore"
     = Some calm_pages.
Proof.
  split.
  - destruct (ingest_index_lifecycle (externals full_block []) "data/rag_docs"
                "rag/vectorstore" 800 200
                (world env_gemini ["broken.pdf"; "calm.pdf"] (Some earlier_index))
                "models/text-embedding-004" calm_pages
                (snd (mkdir_outcome (externals full_block []) "rag/vectorstore"
                        (listing (world env_gemini ["broken.pdf"; "calm.pdf"]
                                    (Some earlier_index))))))
      as (_ & _ & _ & H & _).
    + vm_compute. reflexivity.
    + vm_compute. discriminate.
    + split; [vm_compute; reflexivity|].
      exists (config_with full_block), {| emb_model_name := Some "models/text-embedding-004" |}.
      repeat split.
    + vm_compute. discriminate.
    + vm_compute. reflexivity.
    + reflexivity.
    + reflexivity.
    + reflexivity.
    + reflexivity.
    + apply H. vm_compute. reflexivity.
  - destruct (ingest_index_lifecycle (externals full_block []) "data/rag_docs"
                "rag/vectorstore" 800 200 (world env_gemini ["calm.pdf"] None)
                "models/text-embedding-004" calm_pages
                (snd (mkdir_outcome (externals full_block []) "rag/vectorstore"
                        (listing (world env_gemini ["calm.pdf"] None)))))
      as (_ & _ & H & _).
    + vm_compute. reflexivity.
    + vm_compute. discriminate.
    + split; [vm_compute; reflexivity|].
      exists (config_with full_block), {| emb_model_name := Some "models/text-embedding-004" |}.
      repeat split.
    + vm_compute. discriminate.
    + vm_compute. reflexivity.
    + reflexivity.
    + reflexivity.
    + reflexivity.
    + reflexivity.
    + apply H. vm_compute. reflexivity.
Defined.

Lemma ingest_tags_every_record_witness :
  Forall (fun doc => metadata doc !! "source_file" = Some "calm.pdf"
                     /\ metadata doc !! "source_path" = Some "data/rag_docs/calm.pdf")
    (loaded (externals full_block []) "data/rag_docs" ["calm.pdf"])
  /\ fst (ingest_documents (externals full_block []) "data/rag_docs" "rag/vectorstore"
            800 200 (world env_gemini ["calm.pdf"] None)) = Ok tt
  /\ Forall (fun c => metadata c !! "source_file" = Some "calm.pdf") calm_pages.
Proof.
  destruct (ingest_tags_every_record (externals full_block []) "data/rag_docs"
              "rag/vectorstore" "calm.pdf"
              (page "Breathe in." "0") (page "Breathe out." "1") (page "Rest." "2")
              (world env_gemini ["calm.pdf"] None)
              "models/text-embedding-004" calm_pages
              (snd (mkdir_outcome (externals full_block []) "rag/vectorstore"
                      (listing (world env_gemini ["calm.pdf"] None))))) as [Htag H].
  split.
  - apply List.Forall_forall. intros doc Hdoc.
    destruct (Htag ["calm.pdf"] doc Hdoc) as (file & Hfile & Hname & Hpath).
    destruct Hfile as [<-|[]]. split; [exact Hname | exact Hpath].
  - destruct H as (Hok & _ & _ & Hchunks).
    + vm_compute. reflexivity.
    + vm_compute. reflexivity.
    + vm_compute. reflexivity.
    + split; [vm_compute; reflexivity|].
      exists (config_with full_block), {| emb_model_name := Some "models/text-embedding-004" |}.
      repeat split.
    + vm_compute. reflexivity.
    + reflexivity.
    + reflexivity.
    + reflexivity.
    + reflexivity.
    + split; [exact Hok|]. apply List.Forall_forall.
      apply Hchunks. intros c Hc. exists c. split; [exact Hc | reflexivity].
Defined.

(** C9 as stated fails: one PDF of three short pages, 28 characters in
    all, is split page by page; each page fits in one chunk, the run
    produces three chunks, and the bound of the claim is two. *)
Lemma ingest_chunk_count_counterexample :
  let ext := externals full_block [] in
  let w := world env_gemini ["calm.pdf"] None in
  let r := ingest_documents ext "data/rag_docs" "rag/vectorstore" 800 200 w in
  pdf_files_in w "data/rag_docs" = ["calm.pdf"]
  /\ (exists p1 p2 p3,
        pdf_load ext "data/rag_docs/calm.pdf" = inr [p1; p2; p3]
        /\ total_chars [p1; p2; p3] = 28%Z)
  /\ fst r = Ok tt
  /\ In (split_event calm_pages) (console (snd r))
  /\ faiss_files (snd r) !! "rag/vectorstore" = Some calm_pages
  /\ length calm_pages = 3%nat
  /\ chunk_bound 28 = 2%Z
  /\ ~ (Z.of_nat (length calm_pages) <= chunk_bound 28)%Z.
Proof.
  cbv zeta. split; [vm_compute; reflexivity|]. split.
  { eexists _, _, _. split; vm_compute; reflexivity. }
  split; [vm_compute; reflexivity|]. split.
  { vm_compute. repeat (first [left; reflexivity | right]). }
  split; [vm_compute; reflexivity|]. split; [reflexivity|]. split; [reflexivity|].
  vm_compute. intros H. apply H. reflexivity.
Qed.

(** * The further properties on sample runs *)

Lemma exception_text_shows_cause_witness :
  contains "bad value"
    (DocumentPortalException_str (DocumentPortalException_init "bad value" None)) = true
  /\ DocumentPortalException_str (DocumentPortalException_init "bad value" None)
     = LF +:+ "        Error in [unknown] at line [0]" +:+ LF
       +:+ "        Message: bad value" +:+ LF
       +:+ "        Traceback:" +:+ LF
       +:+ "        No traceback available" +:+ LF +:+ "        ".
Proof.
  destruct (exception_text_shows_cause "bad value" None) as (Hmsg & Hnone & _).
  split; [exact Hmsg | exact (Hnone eq_refl)].
Defined.

Lemma load_llm_client_source_witness :
  fst (load_llm (externals block_null_temperature [])
         (loader env_openai block_null_temperature) (world env_openai [] None))
  = Ok {| llm_class := ChatOpenAI; llm_model := Some "gpt-4o-mini";
          llm_temperature := None; llm_max_tokens := Some (Some 2048%Z) |}
  /\ exists key cfg,
       block_null_temperature !! key = Some cfg
       /\ (None : option Q)
          = match temperature cfg with
            | Some given => given
            | None => Some (2 # 10)%Q
            end.
Proof.
  split; [vm_compute; reflexivity|].
  destruct (load_llm_client_source (externals block_null_temperature [])
              (loader env_openai block_null_temperature) (world env_openai [] None)
              {| llm_class := ChatOpenAI; llm_model := Some "gpt-4o-mini";
                 llm_temperature := None; llm_max_tokens := Some (Some 2048%Z) |})
    as (b & key & cfg & cls & Hb & _ & _ & Hk & _ & _ & _ & Htemp & _).
  - vm_compute. reflexivity.
  - injection Hb as <-. exists key, cfg. split; [exact Hk | exact Htemp].
Defined.

Lemma load_llm_outcomes_witness :
  load_llm (externals full_block [])
    {| api_keys := keys_of (list_to_map env_openai);
       config := {| config_keys := []; embedding_model := None; llm := None |} |}
    (world env_openai [] None)
  = (Raise (KeyError "llm"), world env_openai [] None).
Proof.
  destruct (load_llm_outcomes (externals full_block [])
              {| api_keys := keys_of (list_to_map env_openai);
                 config := {| config_keys := []; embedding_model := None; llm := None |} |}
              (world env_openai [] None)) as (_ & H & _).
  apply H. reflexivity.
Defined.

Lemma load_llm_groq_only_witness :
  fst (load_llm (externals full_block []) (loader [("GROQ_API_KEY", "gsk-test")] full_block)
         (world [("GROQ_API_KEY", "gsk-test")] [] None))
  = Ok {| llm_class := ChatGroq; llm_model := Some "llama-3.3-70b-versatile";
          llm_temperature := Some 0%Q; llm_max_tokens := None |}.
Proof.
  apply (load_llm_groq_only (externals full_block [])
           (loader [("GROQ_API_KEY", "gsk-test")] full_block) full_block
           (world [("GROQ_API_KEY", "gsk-test")] [] None)
           (entry (Some "groq") "llama-3.3-70b-versatile"));
    vm_compute; reflexivity.
Defined.

Lemma load_llm_reads_three_keys_witness :
  load_llm (externals full_block []) (loader env_openai_google full_block)
    (world env_openai_google [] None)
  = load_llm (externals full_block [])
      (loader env_openai_google
         (<["anthropic" := entry (Some "anthropic") "claude"]> full_block))
      (world env_openai_google [] None).
Proof.
  apply (load_llm_reads_three_keys (externals full_block [])
           (loader env_openai_google full_block)
           (loader env_openai_google
              (<["anthropic" := entry (Some "anthropic") "claude"]> full_block))
           full_block (<["anthropic" := entry (Some "anthropic") "claude"]> full_block)).
  - reflexivity.
  - reflexivity.
  - reflexivity.
  - intros key [<-|[<-|[<-|[]]]]; vm_compute; reflexivity.
Defined.

Lemma ModelLoader_init_outcomes_witness :
  fst (ModelLoader_init (externals full_block []) (world [("GROQ_API_KEY", "")] [] None))
  = Raise (DocumentPortalException no_keys_message)
  /\ fst (ModelLoader_init (externals full_block []) (world env_openai [] None))
     = Ok (loader env_openai full_block).
Proof.
  split.
  - destruct (ModelLoader_init_outcomes (externals full_block [])
                (world [("GROQ_API_KEY", "")] [] None)) as (H & _).
    apply H. vm_compute. reflexivity.
  - destruct (ModelLoader_init_outcomes (externals full_block [])
                (world env_openai [] None)) as (_ & _ & H & _).
    apply (H eq_refl (config_with full_block) eq_refl).
Defined.

Lemma load_embeddings_missing_model_name_witness :
  fst (load_embeddings (externals full_block [])
         {| api_keys := keys_of (list_to_map env_gemini);
            config := config_without_embedding full_block |}
         (world env_gemini [] None))
  = Raise (DocumentPortalException "Failed to load embedding model: 'embedding_model'").
Proof.
  destruct (load_embeddings_missing_model_name (externals full_block [])
              {| api_keys := keys_of (list_to_map env_gemini);
                 config := config_without_embedding full_block |}
              (world env_gemini [] None)) as (H & _).
  apply H. reflexivity.
Defined.

Lemma ingest_requires_embedding_credential_witness :
  exists evs,
    ingest_documents (externals full_block []) "data/rag_docs" "rag/vectorstore" 800 200
      (world env_openai ["calm.pdf"] None)
    = (Raise (SystemExit 1), say evs (world env_openai ["calm.pdf"] None)).
Proof.
  destruct (ingest_requires_embedding_credential (externals full_block []) "data/rag_docs"
              "rag/vectorstore" 800 200 (world env_openai ["calm.pdf"] None))
    as (evs & H & _).
  - vm_compute. reflexivity.
  - vm_compute. reflexivity.
  - exists evs. exact H.
Defined.

Lemma discover_finds_pdf_names_witness :
  exists entries,
    listing (world env_gemini ["notes.txt"; "calm.pdf"; "sleep.pdf"] None) !! "data/rag_docs"
    = Some entries
    /\ forall name,
         In name ["calm.pdf"; "sleep.pdf"]
         <-> In name entries /\ exists stem, name = stem +:+ ".pdf".
Proof.
  destruct (discover_finds_pdf_names "data/rag_docs"
              (world env_gemini ["notes.txt"; "calm.pdf"; "sleep.pdf"] None)
              ["calm.pdf"; "sleep.pdf"]) as [_ H].
  - vm_compute. reflexivity.
  - exact H.
Defined.

Lemma ingest_exits_when_embeddings_fail_witness :
  exists evs,
    ingest_documents (with_embedding_fault (externals full_block []) "API key not valid")
      "data/rag_docs" "rag/vectorstore" 800 200 (world env_gemini ["calm.pdf"] None)
    = (Raise (SystemExit 1),
       say evs (dotenv_world (with_embedding_fault (externals full_block []) "API key not valid")
                  (world env_gemini ["calm.pdf"] None))).
Proof.
  destruct (ingest_exits_when_embeddings_fail
              (with_embedding_fault (externals full_block []) "API key not valid")
              "data/rag_docs" "rag/vectorstore" 800 200 (world env_gemini ["calm.pdf"] None))
    as (evs & H & _).
  - vm_compute. reflexivity.
  - vm_compute. discriminate.
  - vm_compute. discriminate.
  - intros model (_ & c & ec & _ & _ & _ & Hfault). discriminate Hfault.
  - intros e He. discriminate He.
  - exists evs. exact H.
Defined.

Lemma ingest_splitter_error_propagates_witness :
  exists evs,
    ingest_documents (with_splitter_fault (externals full_block []) "bad separator")
      "data/rag_docs" "rag/vectorstore" 800 200 (world env_gemini ["calm.pdf"] None)
    = (Raise (LibraryError "bad separator"),
       say evs (dotenv_world (with_splitter_fault (externals full_block []) "bad separator")
                  (world env_gemini ["calm.pdf"] None))).
Proof.
  destruct (ingest_splitter_error_propagates
              (with_splitter_fault (externals full_block []) "bad separator")
              "data/rag_docs" "rag/vectorstore" 800 200 (world env_gemini ["calm.pdf"] None)
              "models/text-embedding-004" "bad separator") as (evs & H & _).
  - vm_compute. reflexivity.
  - vm_compute. discriminate.
  - split; [vm_compute; reflexivity|].
    exists (config_with full_block), {| emb_model_name := Some "models/text-embedding-004" |}.
    repeat split.
  - vm_compute. discriminate.
  - reflexivity.
  - exists evs. exact H.
Defined.

Lemma ingest_index_failure_keeps_index_witness :
  (fst (ingest_documents (with_mkdir_fault (externals full_block []) "Permission denied")
          "data/rag_docs" "rag/vectorstore" 800 200
          (world env_gemini ["calm.pdf"] (Some earlier_index)))
   = Raise (LibraryError "Permission denied"))
  /\ (exists evs,
        ingest_documents (with_embed_fault (externals full_block []) "quota exceeded")
          "data/rag_docs" "rag/vectorstore" 800 200
          (world env_gemini ["calm.pdf"] (Some earlier_index))
        = (Raise (SystemExit 1),
           say evs (prepared_world (with_embed_fault (externals full_block []) "quota exceeded")
                      (world env_gemini ["calm.pdf"] (Some earlier_index))
                      (<["rag/vectorstore" := []]>
                         (listing (world env_gemini ["calm.pdf"] (Some earlier_index))))))
        /\ existsb is_diagnostic evs = true)
  /\ fst (ingest_documents (with_save_fault (externals full_block []) "disk full")
            "data/rag_docs" "rag/vectorstore" 800 200
            (world env_gemini ["calm.pdf"] (Some earlier_index)))
     = Raise (SystemExit 1).
Proof.
  split; [|split].
  - destruct (ingest_index_failure_keeps_index
                (with_mkdir_fault (externals full_block []) "Permission denied")
                "data/rag_docs" "rag/vectorstore" 800 200
                (world env_gemini ["calm.pdf"] (Some earlier_index))
                "models/text-embedding-004" calm_pages) as (H & _).
    + vm_compute. reflexivity.
    + vm_compute. discriminate.
    + split; [vm_compute; reflexivity|].
      exists (config_with full_block), {| emb_model_name := Some "models/text-embedding-004" |}.
      repeat split.
    + vm_compute. discriminate.
    + vm_compute. reflexivity.
    + apply (H "Permission denied"
               (listing (world env_gemini ["calm.pdf"] (Some earlier_index)))).
      reflexivity.
  - destruct (ingest_index_failure_keeps_index
                (with_embed_fault (externals full_block []) "quota exceeded")
                "data/rag_docs" "rag/vectorstore" 800 200
                (world env_gemini ["calm.pdf"] (Some earlier_index))
                "models/text-embedding-004" calm_pages) as (_ & H & _).
    + vm_compute. reflexivity.
    + vm_compute. discriminate.
    + split; [vm_compute; reflexivity|].
      exists (config_with full_block), {| emb_model_name := Some "models/text-embedding-004" |}.
      repeat split.
    + vm_compute. discriminate.
    + vm_compute. reflexivity.
    + destruct (H (<["rag/vectorstore" := []]>
                     (listing (world env_gemini ["calm.pdf"] (Some earlier_index)))))
        as (evs & Hrun & Hd & _).
      * vm_compute. reflexivity.
      * right. discriminate.
      * exists evs. split; [exact Hrun | exact Hd].
  - destruct (ingest_index_failure_keeps_index
                (with_save_fault (externals full_block []) "disk full")
                "data/rag_docs" "rag/vectorstore" 800 200
                (world env_gemini ["calm.pdf"] (Some earlier_index))
                "models/text-embedding-004" calm_pages) as (_ & _ & H).
    + vm_compute. reflexivity.
    + vm_compute. discriminate.
    + split; [vm_compute; reflexivity|].
      exists (config_with full_block), {| emb_model_name := Some "models/text-embedding-004" |}.
      repeat split.
    + vm_compute. discriminate.
    + vm_compute. reflexivity.
    + destruct (H (<["rag/vectorstore" := []]>
                     (listing (world env_gemini ["calm.pdf"] (Some earlier_index))))
                  "disk full") as (Hexit & _).
      * vm_compute. reflexivity.
      * intros [[_ Hload]|Hembed]; [apply Hload | apply Hembed]; reflexivity.
      * reflexivity.
      * exact Hexit.
Defined.

Lemma ingest_twice_duplicates_witness :
  faiss_files
    (snd (ingest_documents (externals full_block []) "data/rag_docs" "rag/vectorstore" 800 200
            (snd (ingest_documents (externals full_block []) "data/rag_docs" "rag/vectorstore"
                    800 200 (world env_gemini ["calm.pdf"] None)))))
    !! "rag/vectorstore"
  = Some (calm_pages ++ calm_pages).
Proof.
  destruct (ingest_twice_duplicates (externals full_block []) "data/rag_docs"
              "rag/vectorstore" 800 200 (world env_gemini ["calm.pdf"] None)
              "models/text-embedding-004" calm_pages
              (<["rag/vectorstore" := []]> (listing (world env_gemini ["calm.pdf"] None)))
              (<["rag/vectorstore" := []]> (listing (world env_gemini ["calm.pdf"] None))))
    as (_ & _ & _ & _ & H).
  - vm_compute. reflexivity.
  - vm_compute. discriminate.
  - split; [vm_compute; reflexivity|].
    exists (config_with full_block), {| emb_model_name := Some "models/text-embedding-004" |}.
    repeat split.
  - split; [vm_compute; reflexivity|].
    exists (config_with full_block), {| emb_model_name := Some "models/text-embedding-004" |}.
    repeat split.
  - vm_compute. discriminate.
  - vm_compute. reflexivity.
  - vm_compute. reflexivity.
  - vm_compute. reflexivity.
  - vm_compute. reflexivity.
  - reflexivity.
  - reflexivity.
  - reflexivity.
  - apply H. vm_compute. reflexivity.
Defined.

Lemma load_loop_keeps_pages_witness :
  exists original,
    page_content (tag "calm.pdf" "data/rag_docs/calm.pdf" (page "Rest." "2"))
    = page_content original
    /\ metadata (tag "calm.pdf" "data/rag_docs/calm.pdf" (page "Rest." "2")) !! "page"
       = metadata original !! "page".
Proof.
  destruct (load_loop_keeps_pages (externals full_block []) "data/rag_docs"
              ["broken.pdf"; "calm.pdf"] (world env_gemini ["broken.pdf"; "calm.pdf"] None)
              calm_pages (tag "calm.pdf" "data/rag_docs/calm.pdf" (page "Rest." "2")))
    as (name & pages & p & _ & _ & _ & Hcontent & Hmeta).
  - vm_compute. reflexivity.
  - right. right. left. reflexivity.
  - exists p. split; [exact Hcontent|]. apply Hmeta; discriminate.
Defined.
